(** * generate_qr.py: QR codes from a CSV table

    A shallow embedding of [src/generate_qr.py] and the properties of its
    batch pipeline: token resolution, URL and file name construction, the
    augmented table written as manifest, and the optional archive.

    Conventions of the embedding.
    - Text is [string] over the code points U+0000..U+00FF (one [ascii] per
      code point); [str.strip], [str.lower], [str.rstrip], [str.zfill] and
      [str(int)] are written out for that range.
    - The table is the [DataFrame] returned by [pd.read_csv]: named columns
      of equal length over a [RangeIndex]; a cell is text or the missing
      value NaN, and a column takes either in any row.  Numeric columns
      are outside the model.
    - [random.choices] draws from an explicit stream of naturals.
    - Effects on the outside world (directory, images, manifest, archive,
      progress lines) are recorded in order in a trace; the file system and
      the QR library are taken to succeed.  [sys.exit], the [ValueError]
      of [Path.with_suffix] and the [IsADirectoryError] of an archive path
      that is the image directory itself end the run with the trace written
      so far. *)

From Stdlib Require Import String Ascii List Arith NArith ZArith Lia Bool.
Import ListNotations.
Open Scope string_scope.
Open Scope nat_scope.

(** ** Python text primitives *)

Module PyStr.

(** Code point of a character. *)
Definition ord (c : ascii) : nat := nat_of_ascii c.

(** [str.isspace] on one character, for code points below 256:
    TAB..CR, FS..US, SPACE, NEL and NBSP. *)
Definition is_space (c : ascii) : bool :=
  let n := ord c in
  ((9 <=? n) && (n <=? 13)) || ((28 <=? n) && (n <=? 32))
  || (n =? 133) || (n =? 160).

(** [str.lower] on one character, for code points below 256:
    A..Z and the Latin-1 capitals (all of U+00C0..U+00DE but the
    multiplication sign U+00D7) move up by 32. *)
Definition lower_char (c : ascii) : ascii :=
  let n := ord c in
  if ((65 <=? n) && (n <=? 90))
     || ((192 <=? n) && (n <=? 222) && negb (n =? 215))
  then ascii_of_nat (n + 32) else c.

Fixpoint lower (s : string) : string :=
  match s with
  | EmptyString => EmptyString
  | String c r => String (lower_char c) (lower r)
  end.

(** Leading characters satisfying [p] removed. *)
Fixpoint lstrip_by (p : ascii -> bool) (s : string) : string :=
  match s with
  | EmptyString => EmptyString
  | String c r => if p c then lstrip_by p r else s
  end.

(** Trailing characters satisfying [p] removed. *)
Fixpoint rstrip_by (p : ascii -> bool) (s : string) : string :=
  match s with
  | EmptyString => EmptyString
  | String c r =>
      match rstrip_by p r with
      | EmptyString => if p c then EmptyString else String c EmptyString
      | r' => String c r'
      end
  end.

(** [s.strip()]: whitespace removed at both ends. *)
Definition strip (s : string) : string :=
  rstrip_by is_space (lstrip_by is_space s).

(** [s.rstrip(chars)]: trailing characters that occur in [chars] removed. *)
Definition mem_char (chars : string) (c : ascii) : bool :=
  existsb (Ascii.eqb c) (list_ascii_of_string chars).

Definition rstrip (chars s : string) : string := rstrip_by (mem_char chars) s.

(** [str(n)] for a non-negative [int]: decimal digits, no leading zero. *)
Definition digit (d : nat) : ascii := ascii_of_nat (48 + d).

Fixpoint dec (fuel n : nat) : string :=
  match fuel with
  | 0 => EmptyString
  | S f =>
      if n <? 10 then String (digit n) EmptyString
      else dec f (n / 10) ++ String (digit (n mod 10)) EmptyString
  end.

Definition str_nat (n : nat) : string := dec (S n) n.

Fixpoint zeros (k : nat) : string :=
  match k with
  | 0 => EmptyString
  | S k' => String "0" (zeros k')
  end.

(** [s.zfill(width)]: zeros on the left up to [width], after a leading
    sign if there is one; [s] itself when it is already that long. *)
Definition is_sign (c : ascii) : bool := Ascii.eqb c "+" || Ascii.eqb c "-".

Definition zfill (s : string) (width : nat) : string :=
  if width <=? String.length s then s
  else
    let pad := zeros (width - String.length s) in
    match s with
    | String c r => if is_sign c then String c (pad ++ r) else pad ++ s
    | EmptyString => pad
    end.

(** [s.startswith(t)]. *)
Definition startswith (t s : string) : bool := String.prefix t s.

(** [c in s]. *)
Definition contains (c : ascii) (s : string) : bool := mem_char s c.

(** [s.split(sep)] for a one-character separator. *)
Fixpoint split (sep : ascii) (s : string) : list string :=
  match s with
  | EmptyString => [EmptyString]
  | String c r =>
      if Ascii.eqb c sep then EmptyString :: split sep r
      else match split sep r with
           | [] => [String c EmptyString]
           | w :: ws => String c w :: ws
           end
  end.

(** [s.rfind(c)]: the last position of [c] in [s], [None] for -1. *)
Fixpoint rfind (c : ascii) (s : string) : option nat :=
  match s with
  | EmptyString => None
  | String d r =>
      match rfind c r with
      | Some i => Some (S i)
      | None => if Ascii.eqb d c then Some 0 else None
      end
  end.

End PyStr.

(** ** pathlib: pure POSIX paths *)

Module PurePath.
Import PyStr.

(** A parsed path: the root ([/], [//] or none) and the components after
    it.  Empty components and [.] are dropped when a path is parsed. *)
Record Path := { root : string; parts : list string }.

Definition is_sep (c : ascii) : bool := Ascii.eqb c "/".

Definition splitroot (part : string) : string * string :=
  match part with
  | String c _ =>
      if is_sep c then
        let stripped := lstrip_by is_sep part in
        if String.length part - String.length stripped =? 2
        then ("//", stripped) else ("/", stripped)
      else (EmptyString, part)
  | EmptyString => (EmptyString, part)
  end.

Definition kept (x : string) : bool :=
  negb (String.eqb x EmptyString) && negb (String.eqb x ".").

(** [Path(s)]. *)
Definition parse (s : string) : Path :=
  let '(rt, rel) := splitroot s in
  {| root := rt; parts := filter kept (split "/" rel) |}.

(** [self / key] for a string [key]: an absolute [key] replaces [self]. *)
Definition joinpath (self : Path) (key : string) : Path :=
  let k := parse key in
  match root k with
  | EmptyString => {| root := root self; parts := parts self ++ parts k |}
  | _ => k
  end.

(** [self.name]: the last component, empty when there is none. *)
Definition name (self : Path) : string := last (parts self) EmptyString.

(** [self.suffix]: from the last dot of the name, when that dot is neither
    its first nor its last character. *)
Definition suffix (self : Path) : string :=
  let n := name self in
  match rfind "." n with
  | Some i =>
      if (0 <? i) && (i <? String.length n - 1)
      then substring i (String.length n - i) n else EmptyString
  | None => EmptyString
  end.

(** [self.with_suffix(suffix)]; [None] stands for the [ValueError] raised
    on an invalid suffix or on a path with an empty name. *)
Definition with_suffix (self : Path) (suf : string) : option Path :=
  if contains "/" suf then None
  else if (negb (String.eqb suf EmptyString) && negb (startswith "." suf))
          || String.eqb suf "."
  then None
  else
    let n := name self in
    if String.eqb n EmptyString then None
    else
      let old := suffix self in
      let n' := substring 0 (String.length n - String.length old) n ++ suf in
      Some {| root := root self; parts := removelast (parts self) ++ [n'] |}.

(** [p == q]: the same root and the same components. *)
Fixpoint parts_eqb (l1 l2 : list string) : bool :=
  match l1, l2 with
  | [], [] => true
  | x :: r1, y :: r2 => String.eqb x y && parts_eqb r1 r2
  | _, _ => false
  end.

Definition eqb (p q : Path) : bool :=
  String.eqb (root p) (root q) && parts_eqb (parts p) (parts q).

End PurePath.
Export PurePath(Path).

(** ** pandas: the table *)

(** A cell: text, or the missing value (a float NaN). *)
Inductive value := VStr (s : string) | NaN.

(** [str(v)]. *)
Definition str_value (v : value) : string :=
  match v with
  | VStr s => s
  | NaN => "nan"
  end.

(** Columns in order, each with its name; [nrows] is [len(df)]. *)
Record DataFrame := { nrows : nat; columns : list (string * list value) }.

(** A row as [iterrows] yields it: a value per column name. *)
Definition Series := list (string * value).

(** Every column has one cell per row. *)
Definition well_formed (df : DataFrame) : Prop :=
  Forall (fun c => length (snd c) = nrows df) (columns df).

Definition well_formedb (df : DataFrame) : bool :=
  forallb (fun c => length (snd c) =? nrows df) (columns df).

(** [name in df.columns]. *)
Definition has_column (name : string) (df : DataFrame) : bool :=
  existsb (fun c => String.eqb (fst c) name) (columns df).

(** [df[name]]. *)
Fixpoint get_col (name : string) (cols : list (string * list value))
  : option (list value) :=
  match cols with
  | [] => None
  | (n, c) :: r => if String.eqb n name then Some c else get_col name r
  end.

(** The cell of column [name] in row [i]. *)
Definition cell (df : DataFrame) (name : string) (i : nat) : option value :=
  match get_col name (columns df) with
  | Some c => nth_error c i
  | None => None
  end.

(** [df[name] = col]: replaces the column in place or appends a new one. *)
Fixpoint set_col (name : string) (col : list value)
  (cols : list (string * list value)) : list (string * list value) :=
  match cols with
  | [] => [(name, col)]
  | (n, c) :: r =>
      if String.eqb n name then (n, col) :: r else (n, c) :: set_col name col r
  end.

Definition setitem (df : DataFrame) (name : string) (col : list value)
  : DataFrame :=
  {| nrows := nrows df; columns := set_col name col (columns df) |}.

(** [df[name] = v] for a scalar [v]: the value in every row. *)
Definition setitem_scalar (df : DataFrame) (name : string) (v : value)
  : DataFrame :=
  setitem df name (repeat v (nrows df)).

(** [l[i] = v]; the loop only writes inside the index. *)
Fixpoint list_set (i : nat) (v : value) (l : list value) : list value :=
  match l, i with
  | [], _ => []
  | _ :: r, 0 => v :: r
  | x :: r, S j => x :: list_set j v r
  end.

(** [df.at[idx, name] = v] on an existing column. *)
Fixpoint at_col (idx : nat) (name : string) (v : value)
  (cols : list (string * list value)) : list (string * list value) :=
  match cols with
  | [] => []
  | (n, c) :: r =>
      if String.eqb n name then (n, list_set idx v c) :: r
      else (n, c) :: at_col idx name v r
  end.

Definition at_set (df : DataFrame) (idx : nat) (name : string) (v : value)
  : DataFrame :=
  {| nrows := nrows df; columns := at_col idx name v (columns df) |}.

(** [df.iterrows()]: the rows of [df] as it is when the loop starts, each
    with its index label 0, 1, ... *)
Definition row_at (df : DataFrame) (i : nat) : Series :=
  map (fun c => (fst c, nth i (snd c) NaN)) (columns df).

Definition iterrows (df : DataFrame) : list (nat * Series) :=
  map (fun i => (i, row_at df i)) (seq 0 (nrows df)).

(** [row[name]]; [None] stands for [KeyError]. *)
Fixpoint series_get (name : string) (row : Series) : option value :=
  match row with
  | [] => None
  | (n, v) :: r => if String.eqb n name then Some v else series_get name r
  end.

(** ** The program *)

(** Lines 89-90: a table without a [token] column gets one, empty in every
    row. *)
Definition ensure_token_column (df : DataFrame) : DataFrame :=
  if negb (has_column "token" df)
  then setitem_scalar df "token" (VStr EmptyString) else df.

Inductive Format := png | svg.

(** [args.format] as the text it is. *)
Definition format_str (f : Format) : string :=
  match f with
  | png => "png"
  | svg => "svg"
  end.

(** The parsed command line. *)
Record Args := {
  csv : string;
  webapp_url : string;
  out : string;
  format : Format;
  token_len : Z;
  zip : bool;
  output_csv : string
}.

Inductive image_factory := PilImage | SvgImage.
Inductive compression := ZIP_STORED | ZIP_DEFLATED.

(** The three kinds of progress line. *)
Inductive message :=
| MsgFile (fname : string)
| MsgWrote (path : string)
| MsgCreated (path : Path).

(** What a run does to the outside world. *)
Inductive event :=
| Mkdir (dir : Path)
| SaveImage (factory : image_factory) (data : string) (out_path : Path)
| PrintLine (m : message)
| ToCsv (path : string) (df : DataFrame)
| ZipFile (path : Path) (method : compression)
    (entries : list (Path * string)).

Inductive exn := ValueError | KeyError | IsADirectoryError.

(** How a run ends. *)
Inductive outcome :=
| Returned
| SystemExit (msg : string)
| Raised (e : exn).

(** The process exit status: [sys.exit] with a text argument prints it and
    exits with 1, as does an uncaught exception. *)
Definition exit_status (o : outcome) : Z :=
  match o with
  | Returned => 0%Z
  | SystemExit _ => 1%Z
  | Raised _ => 1%Z
  end.

Record Run := { trace : list event; result : outcome }.

(** [string.ascii_uppercase + string.digits] *)
Definition alphabet : string := "ABCDEFGHIJKLMNOPQRSTUVWXYZ0123456789".

(** The text of the error for a table without [full_name]; U+00E5 is the
    a with ring. *)
Definition missing_full_name : string :=
  "[error] CSV m" ++ String (ascii_of_nat 229) "ste ha kolumnen 'full_name'".

Section Program.

(** The random source: [rng j] is the value behind the [j]-th draw of the
    run.  A draw picks [population[floor(random() * n)]], an index below
    [n]; here the index is [rng j] reduced below [n]. *)
Variable rng : nat -> nat.

Definition choice (population : string) (j : nat) : ascii :=
  nth (rng j mod String.length population)
      (list_ascii_of_string population) zero.

(** [random.choices(population, k=k)] from draw [draws] on; no element for
    a negative [k]. *)
Definition choices (population : string) (k : Z) (draws : nat)
  : list ascii :=
  map (fun j => choice population (draws + j)) (seq 0 (Z.to_nat k)).

(** [random_token(length)], with the number of draws used so far. *)
Definition random_token (length : Z) (draws : nat) : string * nat :=
  (string_of_list_ascii (choices alphabet length draws),
   draws + Z.to_nat length).

(** [make_qr(data, out_path, fmt)]: the image factory follows [fmt]. *)
Definition make_qr (data : string) (out_path : Path) (fmt : Format)
  : event :=
  match fmt with
  | svg => SaveImage SvgImage data out_path
  | png => SaveImage PilImage data out_path
  end.

(** The mutable state of the row loop. *)
Record LoopState := {
  ls_df : DataFrame;
  ls_draws : nat;
  ls_files : list string;
  ls_trace : list event
}.

Variable args : Args.

(** The test of line 100 on the stripped text: a new token is needed. *)
Definition needs_token (token : string) : bool :=
  String.eqb token EmptyString || String.eqb (PyStr.lower token) "nan".

(** Lines 99-102: the token of the row, and the table and random source
    after it. *)
Definition resolve (idx : nat) (v : value) (df : DataFrame) (draws : nat)
  : string * DataFrame * nat :=
  let token := PyStr.strip (str_value v) in
  if needs_token token then
    let '(token, draws') := random_token (token_len args) draws in
    (token, at_set df idx "token" (VStr token), draws')
  else (token, df, draws).

(** Line 104. *)
Definition build_url (base token : string) : string :=
  PyStr.rstrip "?" base ++ "?token=" ++ token.

(** Line 105. *)
Definition file_name (idx digits : nat) (token : string) : string :=
  PyStr.zfill (PyStr.str_nat (idx + 1)) digits
    ++ "_" ++ token ++ "." ++ format_str (format args).

(** Lines 99-108, one turn of the loop on a row with a token cell. *)
Definition body (out_dir : Path) (digits : nat) (idx : nat) (v : value)
  (st : LoopState) : LoopState :=
  let '(token, df, draws) := resolve idx v (ls_df st) (ls_draws st) in
  let url := build_url (webapp_url args) token in
  let fname := file_name idx digits token in
  {| ls_df := df;
     ls_draws := draws;
     ls_files := (ls_files st ++ [fname])%list;
     ls_trace := (ls_trace st
       ++ [make_qr url (PurePath.joinpath out_dir fname) (format args);
           PrintLine (MsgFile fname)])%list |}.

(** Lines 98-108. *)
Fixpoint loop (out_dir : Path) (digits : nat) (rows : list (nat * Series))
  (st : LoopState) : LoopState * option exn :=
  match rows with
  | [] => (st, None)
  | (idx, row) :: rest =>
      match series_get "token" row with
      | None => (st, Some KeyError)
      | Some v => loop out_dir digits rest (body out_dir digits idx v st)
      end
  end.

(** Lines 114-119, after the trace [tr].  [ZipFile(zip_path, "w")] opens
    the path for writing; when [with_suffix] gives back the path of the
    image directory itself (a name that ends in [.zip]), that is the
    directory line 93 made and opening it raises [IsADirectoryError]. *)
Definition bundle (out_dir : Path) (filenames : list string)
  (tr : list event) : Run :=
  match PurePath.with_suffix out_dir ".zip" with
  | None => {| trace := tr; result := Raised ValueError |}
  | Some zip_path =>
      if PurePath.eqb zip_path out_dir
      then {| trace := tr; result := Raised IsADirectoryError |}
      else
        {| trace := (tr
             ++ [ZipFile zip_path ZIP_DEFLATED
                   (map (fun name => (PurePath.joinpath out_dir name, name))
                        filenames);
                 PrintLine (MsgCreated zip_path)])%list;
           result := Returned |}
  end.

(** Lines 110-119, on the state the loop leaves. *)
Definition finish (out_dir : Path) (st : LoopState) : Run :=
  let df2 := setitem (ls_df st) "qr_file" (map VStr (ls_files st)) in
  let tr := (ls_trace st
               ++ [ToCsv (output_csv args) df2;
                   PrintLine (MsgWrote (output_csv args))])%list in
  if zip args then bundle out_dir (ls_files st) tr
  else {| trace := tr; result := Returned |}.

(** [main], on the table [df0] that [pd.read_csv(args.csv)] returned. *)
Definition main (df0 : DataFrame) : Run :=
  if negb (has_column "full_name" df0) then
    {| trace := []; result := SystemExit missing_full_name |}
  else
    let df1 := ensure_token_column df0 in
    let out_dir := PurePath.parse (out args) in
    let digits := String.length (PyStr.str_nat (nrows df1)) in
    let st0 := {| ls_df := df1; ls_draws := 0; ls_files := [];
                  ls_trace := [Mkdir out_dir] |} in
    match loop out_dir digits (iterrows df1) st0 with
    | (st, Some e) => {| trace := ls_trace st; result := Raised e |}
    | (st, None) => finish out_dir st
    end.

End Program.

(** The manifest of a run: the table handed to [to_csv]. *)
Fixpoint manifest_of (tr : list event) : option DataFrame :=
  match tr with
  | [] => None
  | ToCsv _ df :: _ => Some df
  | _ :: r => manifest_of r
  end.

Definition manifest (r : Run) : option DataFrame := manifest_of (trace r).

(** ** Vocabulary of the properties *)

Section Vocabulary.
Import PyStr.

(** The first and the last character of a text. *)
Definition head_char (s : string) : option ascii :=
  match s with
  | EmptyString => None
  | String c _ => Some c
  end.

Fixpoint last_char (s : string) : option ascii :=
  match s with
  | EmptyString => None
  | String c EmptyString => Some c
  | String _ r => last_char r
  end.

(** Every character of the text satisfies [p]. *)
Fixpoint all_chars (p : ascii -> bool) (s : string) : bool :=
  match s with
  | EmptyString => true
  | String c r => p c && all_chars p r
  end.

(** A text that begins or ends with whitespace. *)
Definition outer_space (s : string) : Prop :=
  (exists c, head_char s = Some c /\ is_space c = true)
  \/ (exists c, last_char s = Some c /\ is_space c = true).

(** A token value that counts as given: something is left after
    stripping, and it is not the text nan in any letter case. *)
Definition present (s : string) : Prop :=
  strip s <> EmptyString /\ lower (strip s) <> "nan".

(** The text nan in some letter case. *)
Definition nan_casing (t : string) : Prop :=
  exists c1 c2 c3,
    t = String c1 (String c2 (String c3 EmptyString))
    /\ (c1 = "n" \/ c1 = "N")%char
    /\ (c2 = "a" \/ c2 = "A")%char
    /\ (c3 = "n" \/ c3 = "N")%char.

(** A token cell that counts as not given: missing, blank, or the
    placeholder. *)
Inductive absent_token : value -> Prop :=
| absent_missing : absent_token NaN
| absent_blank (s : string) :
    strip s = EmptyString -> absent_token (VStr s)
| absent_placeholder (s : string) :
    nan_casing (strip s) -> absent_token (VStr s).

(** An uppercase ASCII letter or a decimal digit. *)
Definition upper_or_digit (c : ascii) : bool :=
  let n := ord c in
  ((65 <=? n) && (n <=? 90)) || ((48 <=? n) && (n <=? 57)).

(** The event of an archive being written. *)
Definition is_zip (e : event) : bool :=
  match e with
  | ZipFile _ _ _ => true
  | _ => false
  end.

Variable rng : nat -> nat.
Variable args : Args.
Variable out_dir : Path.
Variable digits : nat.

(** The token a row ends up with when the loop reaches it with [draws]
    draws used. *)
Definition token_at (v : value) (draws : nat) : string :=
  if needs_token (strip (str_value v))
  then fst (random_token rng (token_len args) draws)
  else strip (str_value v).

Definition draws_after (v : value) (draws : nat) : nat :=
  if needs_token (strip (str_value v))
  then draws + Z.to_nat (token_len args) else draws.

(** The tokens of the rows in order, a summary of the loop. *)
Fixpoint tokens (vs : list value) (draws : nat) : list string :=
  match vs with
  | [] => []
  | v :: r => token_at v draws :: tokens r (draws_after v draws)
  end.

(** What one turn adds to the trace. *)
Definition row_events (it : nat * string) : list event :=
  let fname := file_name args (fst it) digits (snd it) in
  [make_qr (build_url (webapp_url args) (snd it))
     (PurePath.joinpath out_dir fname) (format args);
   PrintLine (MsgFile fname)].

Definition row_file (it : nat * string) : string :=
  file_name args (fst it) digits (snd it).

(** The loop as a fold over the index labels and token cells. *)
Definition run_rows (a : nat) (vs : list value) (st : LoopState)
  : LoopState :=
  fold_left (fun st iv => body rng args out_dir digits (fst iv) (snd iv) st)
            (combine (seq a (length vs)) vs) st.

End Vocabulary.

(** The directory, the width of the ordinals, and the state before the
    first row. *)
Definition out_path (args : Args) : Path := PurePath.parse (out args).

Definition width (df : DataFrame) : nat :=
  String.length (PyStr.str_nat (nrows df)).

Definition start (args : Args) (df : DataFrame) : LoopState :=
  {| ls_df := ensure_token_column df; ls_draws := 0; ls_files := [];
     ls_trace := [Mkdir (out_path args)] |}.

(** The tokens and the file names of a run, row by row. *)
Definition run_tokens (rng : nat -> nat) (args : Args) (tc : list value)
  : list string :=
  tokens rng args tc 0.

Definition run_files (rng : nat -> nat) (args : Args) (df : DataFrame)
  (tc : list value) : list string :=
  map (row_file args (width df))
      (combine (seq 0 (nrows df)) (run_tokens rng args tc)).

(** [int(s)] on a text of decimal digits. *)
Definition digit_value (c : ascii) : nat := PyStr.ord c - 48.

Fixpoint int_acc (acc : nat) (s : string) : nat :=
  match s with
  | EmptyString => acc
  | String c r => int_acc (10 * acc + digit_value c) r
  end.

Definition int_of_str (s : string) : nat := int_acc 0 s.

(** A decimal digit, [c.isdigit()] on ASCII. *)
Definition is_digit (c : ascii) : bool :=
  (48 <=? PyStr.ord c) && (PyStr.ord c <=? 57).

(** The first [k] characters of a text, [s[:k]]. *)
Definition prefix_of (k : nat) (s : string) : string := substring 0 k s.

(** The image factory [make_qr] takes for a format. *)
Definition factory_of (fmt : Format) : image_factory :=
  match fmt with
  | svg => SvgImage
  | png => PilImage
  end.

(** The images a trace saves, in order: factory, payload and path. *)
Fixpoint saved_images (tr : list event)
  : list (image_factory * string * Path) :=
  match tr with
  | [] => []
  | SaveImage f data path :: r => (f, data, path) :: saved_images r
  | _ :: r => saved_images r
  end.

(** A token cell for which the loop draws a new token. *)
Definition needs_new (v : value) : bool :=
  needs_token (PyStr.strip (str_value v)).

(** How many of the first [j] cells need a new token. *)
Definition needing_before (vs : list value) (j : nat) : nat :=
  length (filter needs_new (firstn j vs)).

(** ** Sample inputs *)

Definition sample_rng (j : nat) : nat := 7 * j + 3.

Definition sample_args : Args :=
  {| csv := "people.csv"; webapp_url := "https://example.com/x?";
     out := "qr_out"; format := png; token_len := 8; zip := true;
     output_csv := "output.csv" |}.

(** Three people: a token with blanks around it, a missing token and a
    placeholder. *)
Definition sample_df : DataFrame :=
  {| nrows := 3;
     columns :=
       [("full_name", [VStr "Ada"; VStr "Bo"; VStr "Cy"]);
        ("token", [VStr " ABC123 "; NaN; VStr " NaN"])] |}.

(** A table without optional columns, and one without [full_name]. *)
Definition names_only : DataFrame :=
  {| nrows := 1; columns := [("full_name", [VStr "Ada"])] |}.

Definition no_names : DataFrame :=
  {| nrows := 1; columns := [("email", [VStr "ada@example.com"])] |}.

(** A negative [--token-len], and the current directory as [--out]. *)
Definition negative_len_args : Args :=
  {| csv := "people.csv"; webapp_url := "https://example.com/x";
     out := "qr_out"; format := png; token_len := (-1); zip := false;
     output_csv := "output.csv" |}.

Definition dot_dir_args : Args :=
  {| csv := "people.csv"; webapp_url := "https://example.com/x";
     out := "."; format := png; token_len := 8; zip := true;
     output_csv := "output.csv" |}.

(** * Properties *)

(** ** Text *)

Section TextFacts.
Import PyStr.

Lemma length_app (s t : string) :
  String.length (s ++ t) = String.length s + String.length t.
Proof. induction s as [|c s IH]; simpl; [reflexivity | now rewrite IH]. Qed.

Lemma app_assoc_str (s t u : string) : (s ++ t) ++ u = s ++ (t ++ u).
Proof. induction s as [|c s IH]; simpl; [reflexivity | now rewrite IH]. Qed.

Lemma app_empty_r (s : string) : s ++ EmptyString = s.
Proof. induction s as [|c s IH]; simpl; [reflexivity | now rewrite IH]. Qed.

Lemma length_zeros (k : nat) : String.length (zeros k) = k.
Proof. induction k; simpl; congruence. Qed.

Lemma last_char_none (s : string) : last_char s = None -> s = EmptyString.
Proof.
  induction s as [|c s IH]; [reflexivity|].
  destruct s as [|d s]; [discriminate|].
  intros H. change (last_char (String d s) = None) in H.
  apply IH in H. discriminate.
Qed.

Lemma last_char_cons (c : ascii) (s : string) :
  last_char (String c s) =
  match last_char s with Some d => Some d | None => Some c end.
Proof.
  destruct s as [|d s]; [reflexivity|].
  change (last_char (String c (String d s))) with (last_char (String d s)).
  destruct (last_char (String d s)) eqn:E; [reflexivity|].
  apply last_char_none in E. discriminate.
Qed.

Lemma last_char_app (s : string) (c : ascii) :
  last_char (s ++ String c EmptyString) = Some c.
Proof.
  induction s as [|d s IH]; [reflexivity|].
  simpl append. rewrite last_char_cons, IH. reflexivity.
Qed.

(** *** Stripping *)

Lemma rstrip_by_split (p : ascii -> bool) (s : string) :
  exists q, s = rstrip_by p s ++ q /\ all_chars p q = true.
Proof.
  induction s as [|c r [q [Hq Hall]]]; [now exists EmptyString|].
  simpl. destruct (rstrip_by p r) as [|d r'] eqn:E.
  - simpl in Hq. subst q. destruct (p c) eqn:Hc.
    + exists (String c r). simpl. now rewrite Hc, Hall.
    + exists r. now split.
  - exists q. split; [|exact Hall]. simpl. now rewrite Hq at 1.
Qed.

Lemma rstrip_by_last (p : ascii -> bool) (s : string) (c : ascii) :
  last_char (rstrip_by p s) = Some c -> p c = false.
Proof.
  induction s as [|d r IH]; [discriminate|].
  simpl. destruct (rstrip_by p r) as [|e r'] eqn:E.
  - destruct (p d) eqn:Hd; [discriminate|].
    simpl. intros H. now injection H as <-.
  - intros H. apply IH. exact H.
Qed.

Lemma rstrip_by_length (p : ascii -> bool) (s : string) :
  String.length (rstrip_by p s) <= String.length s.
Proof.
  destruct (rstrip_by_split p s) as [q [Hq _]].
  rewrite Hq at 2. rewrite length_app. lia.
Qed.

Lemma rstrip_by_shorter (p : ascii -> bool) (s : string) (c : ascii) :
  last_char s = Some c -> p c = true ->
  String.length (rstrip_by p s) < String.length s.
Proof.
  intros Hl Hc. destruct (rstrip_by_split p s) as [q [Hq _]].
  destruct q as [|d q].
  - rewrite app_empty_r in Hq. rewrite Hq in Hl.
    apply rstrip_by_last in Hl. congruence.
  - rewrite Hq at 2. rewrite length_app. simpl. lia.
Qed.

Lemma lstrip_by_length (p : ascii -> bool) (s : string) :
  String.length (lstrip_by p s) <= String.length s.
Proof.
  induction s as [|c r IH]; simpl; [lia|].
  destruct (p c); simpl; lia.
Qed.

Lemma lstrip_by_shorter (p : ascii -> bool) (s : string) (c : ascii) :
  head_char s = Some c -> p c = true ->
  String.length (lstrip_by p s) < String.length s.
Proof.
  destruct s as [|d r]; [discriminate|]. simpl.
  intros H Hc. injection H as ->. rewrite Hc.
  pose proof (lstrip_by_length p r). lia.
Qed.

Lemma lstrip_by_last (p : ascii -> bool) (s : string) :
  lstrip_by p s <> EmptyString -> last_char (lstrip_by p s) = last_char s.
Proof.
  induction s as [|c r IH]; [reflexivity|].
  simpl lstrip_by. destruct (p c); [|reflexivity].
  intros Hne. rewrite (IH Hne), last_char_cons.
  destruct (last_char r) eqn:E; [reflexivity|].
  apply last_char_none in E. subst r. now elim Hne.
Qed.

Lemma strip_shorter (s : string) :
  outer_space s -> String.length (strip s) < String.length s.
Proof.
  unfold strip. intros [[c [Hh Hc]] | [c [Hl Hc]]].
  - pose proof (lstrip_by_shorter is_space s c Hh Hc).
    pose proof (rstrip_by_length is_space (lstrip_by is_space s)). lia.
  - destruct (lstrip_by is_space s) as [|d r] eqn:E.
    + simpl. destruct s; [discriminate | simpl; lia].
    + assert (Hne : lstrip_by is_space s <> EmptyString)
        by (rewrite E; discriminate).
      pose proof (lstrip_by_last is_space s Hne) as Hlast.
      rewrite Hl, E in Hlast.
      pose proof (rstrip_by_shorter is_space _ c Hlast Hc).
      pose proof (lstrip_by_length is_space s). rewrite E in *. lia.
Qed.

Lemma strip_changes (s : string) : outer_space s -> strip s <> s.
Proof.
  intros H E. apply strip_shorter in H. rewrite E in H. lia.
Qed.

(** *** Decimal numerals and zero filling *)

Lemma dec_fuel (f1 f2 n : nat) : n < f1 -> n < f2 -> dec f1 n = dec f2 n.
Proof.
  revert f2 n. induction f1 as [|f1 IH]; intros f2 n H1 H2; [lia|].
  destruct f2 as [|f2]; [lia|]. cbn [dec].
  destruct (n <? 10) eqn:E; [reflexivity|].
  apply Nat.ltb_ge in E.
  assert (n / 10 < n) by (apply Nat.div_lt; lia).
  rewrite (IH f2 (n / 10)) by lia. reflexivity.
Qed.

Lemma dec_length_pos (f n : nat) : 0 < f -> 1 <= String.length (dec f n).
Proof.
  destruct f as [|f]; [lia|]. intros _. cbn [dec].
  destruct (n <? 10); [simpl; lia|].
  rewrite length_app. cbn [String.length]. lia.
Qed.

Lemma dec_length_mono (f n m : nat) :
  n <= m -> m < f -> String.length (dec f n) <= String.length (dec f m).
Proof.
  revert n m. induction f as [|f IH]; intros n m Hnm Hm; [lia|].
  pose proof (dec_length_pos (S f) m) as Hpos.
  cbn [dec] in *. destruct (n <? 10) eqn:En.
  - cbn [String.length]. lia.
  - apply Nat.ltb_ge in En.
    assert (Em : (m <? 10) = false) by (apply Nat.ltb_ge; lia).
    rewrite Em, !length_app. cbn [String.length].
    assert (m / 10 < m) by (apply Nat.div_lt; lia).
    pose proof (Nat.Div0.div_le_mono n m 10 Hnm).
    pose proof (IH (n / 10) (m / 10)). lia.
Qed.

Lemma str_nat_length_mono (n m : nat) :
  n <= m -> String.length (str_nat n) <= String.length (str_nat m).
Proof.
  intros H. unfold str_nat.
  rewrite (dec_fuel (S n) (S m) n) by lia.
  apply dec_length_mono; lia.
Qed.

Lemma digit_not_sign (d : nat) : d < 10 -> is_sign (digit d) = false.
Proof.
  intros H. do 10 (destruct d as [|d]; [reflexivity|]). lia.
Qed.

Lemma dec_head (f n : nat) :
  exists d r, d < 10 /\ dec (S f) n = String (digit d) r.
Proof.
  revert n. induction f as [|f IH]; intros n.
  - cbn [dec]. destruct (n <? 10) eqn:E.
    + apply Nat.ltb_lt in E. now exists n, EmptyString.
    + exists (n mod 10), EmptyString. split; [|reflexivity].
      apply Nat.mod_upper_bound. lia.
  - change (dec (S (S f)) n) with
      (if n <? 10 then String (digit n) EmptyString
       else dec (S f) (n / 10) ++ String (digit (n mod 10)) EmptyString).
    destruct (n <? 10) eqn:E.
    + apply Nat.ltb_lt in E. now exists n, EmptyString.
    + destruct (IH (n / 10)) as [d [r [Hd Hr]]]. rewrite Hr.
      exists d, (r ++ String (digit (n mod 10)) EmptyString). now split.
Qed.

(** On a decimal numeral [zfill] puts the zeros in front. *)
Lemma zfill_str_nat (n width : nat) :
  zfill (str_nat n) width
  = zeros (width - String.length (str_nat n)) ++ str_nat n.
Proof.
  unfold zfill. destruct (width <=? String.length (str_nat n)) eqn:E.
  - apply Nat.leb_le in E.
    replace (width - String.length (str_nat n)) with 0 by lia. reflexivity.
  - unfold str_nat. destruct (dec_head n n) as [d [r [Hd Hr]]].
    rewrite Hr. now rewrite digit_not_sign.
Qed.

(** Filled to the width of a larger numeral a numeral has that width. *)
Lemma zfill_str_nat_length (n m : nat) :
  n <= m ->
  String.length (zfill (str_nat n) (String.length (str_nat m)))
  = String.length (str_nat m).
Proof.
  intros H. rewrite zfill_str_nat, length_app, length_zeros.
  pose proof (str_nat_length_mono n m H). lia.
Qed.

End TextFacts.

(** ** The table *)

Section TableFacts.

Lemma well_formedb_ok (df : DataFrame) :
  well_formedb df = true -> well_formed df.
Proof.
  unfold well_formedb, well_formed. rewrite forallb_forall, Forall_forall.
  intros H c Hc. apply Nat.eqb_eq. now apply H.
Qed.

Lemma has_column_get (name : string) (df : DataFrame) :
  has_column name df = true <-> exists c, get_col name (columns df) = Some c.
Proof.
  unfold has_column. induction (columns df) as [|[n c] r IH]; simpl.
  - split; [discriminate | intros [c H]; discriminate].
  - destruct (String.eqb n name); simpl; [|exact IH].
    split; [now exists c | reflexivity].
Qed.

Lemma has_column_none (name : string) (df : DataFrame) :
  has_column name df = false <-> get_col name (columns df) = None.
Proof.
  unfold has_column. induction (columns df) as [|[n c] r IH]; simpl.
  - now split.
  - destruct (String.eqb n name); simpl; [|exact IH].
    split; discriminate.
Qed.

Lemma get_col_length (name : string) (df : DataFrame) (c : list value) :
  well_formed df -> get_col name (columns df) = Some c ->
  length c = nrows df.
Proof.
  unfold well_formed. induction (columns df) as [|[n c'] r IH]; simpl;
    intros Hwf H; [discriminate|].
  inversion Hwf as [|? ? Hc Hr]; subst.
  destruct (String.eqb n name); [|now apply IH].
  injection H as <-. exact Hc.
Qed.

Lemma get_set_col_same name col cols :
  get_col name (set_col name col cols) = Some col.
Proof.
  induction cols as [|[n c] r IH]; simpl.
  - now rewrite String.eqb_refl.
  - destruct (String.eqb n name) eqn:E; simpl; now rewrite E.
Qed.

Lemma get_set_col_other name other col cols :
  other <> name ->
  get_col other (set_col name col cols) = get_col other cols.
Proof.
  intros Hne. induction cols as [|[n c] r IH]; simpl.
  - apply String.eqb_neq in Hne. rewrite String.eqb_sym. now rewrite Hne.
  - destruct (String.eqb n name) eqn:E; simpl.
    + apply String.eqb_eq in E. subst n.
      assert (String.eqb name other = false) as ->
          by (apply String.eqb_neq; congruence).
      reflexivity.
    + now rewrite IH.
Qed.

Lemma get_at_col_same idx name v cols :
  get_col name (at_col idx name v cols)
  = option_map (list_set idx v) (get_col name cols).
Proof.
  induction cols as [|[n c] r IH]; simpl; [reflexivity|].
  destruct (String.eqb n name) eqn:E; simpl; now rewrite E.
Qed.

Lemma get_at_col_other idx name other v cols :
  other <> name ->
  get_col other (at_col idx name v cols) = get_col other cols.
Proof.
  intros Hne. induction cols as [|[n c] r IH]; simpl; [reflexivity|].
  destruct (String.eqb n name) eqn:E; simpl.
  - apply String.eqb_eq in E. subst n.
    assert (String.eqb name other = false) as ->
        by (apply String.eqb_neq; congruence).
    reflexivity.
  - now rewrite IH.
Qed.

Lemma names_at_col idx name v cols :
  map fst (at_col idx name v cols) = map fst cols.
Proof.
  induction cols as [|[n c] r IH]; simpl; [reflexivity|].
  destruct (String.eqb n name); simpl; [reflexivity | now rewrite IH].
Qed.

Lemma has_column_names name df :
  has_column name df = existsb (String.eqb name) (map fst (columns df)).
Proof.
  unfold has_column. induction (columns df) as [|[n c] r IH]; simpl;
    [reflexivity|]. now rewrite IH, String.eqb_sym.
Qed.

Lemma names_set_col name col cols :
  map fst (set_col name col cols)
  = if existsb (String.eqb name) (map fst cols) then map fst cols
    else (map fst cols ++ [name])%list.
Proof.
  induction cols as [|[n c] r IH]; simpl; [reflexivity|].
  rewrite (String.eqb_sym name n).
  destruct (String.eqb n name); simpl; [reflexivity|].
  rewrite IH. now destruct (existsb _ _).
Qed.

Lemma length_list_set i v l : length (list_set i v l) = length l.
Proof.
  revert i. induction l as [|x r IH]; intros [|i]; simpl; auto.
Qed.

Lemma nth_error_list_set i j v l :
  nth_error (list_set i v l) j
  = if (i =? j) && (j <? length l) then Some v else nth_error l j.
Proof.
  revert i j. induction l as [|x r IH]; intros i j.
  - destruct i, j; simpl; try reflexivity;
      now rewrite ?andb_false_r.
  - destruct i as [|i], j as [|j]; simpl; try reflexivity.
    rewrite IH. reflexivity.
Qed.

Lemma series_get_row_at name df i :
  series_get name (row_at df i)
  = option_map (fun c => nth i c NaN) (get_col name (columns df)).
Proof.
  unfold row_at. induction (columns df) as [|[n c] r IH]; simpl;
    [reflexivity|].
  destruct (String.eqb n name); [reflexivity | exact IH].
Qed.

End TableFacts.

(** ** The row loop *)

Section LoopFacts.
Import PyStr.

Variable rng : nat -> nat.
Variable args : Args.
Variable out_dir : Path.
Variable digits : nat.

Local Abbreviation body' := (body rng args out_dir digits).
Local Abbreviation run' := (run_rows rng args out_dir digits).
Local Abbreviation tokens' := (tokens rng args).
Local Abbreviation token' := (token_at rng args).
Local Abbreviation file' := (row_file args digits).
Local Abbreviation events' := (row_events args out_dir digits).

Lemma body_eq (idx : nat) (v : value) (st : LoopState) :
  body' idx v st =
  {| ls_df := if needs_token (strip (str_value v))
              then at_set (ls_df st) idx "token"
                     (VStr (token' v (ls_draws st)))
              else ls_df st;
     ls_draws := draws_after args v (ls_draws st);
     ls_files := (ls_files st ++ [file' (idx, token' v (ls_draws st))])%list;
     ls_trace := (ls_trace st ++ events' (idx, token' v (ls_draws st)))%list |}.
Proof.
  unfold body, resolve, token_at, draws_after, row_file, row_events.
  destruct (needs_token (strip (str_value v))); reflexivity.
Qed.

Lemma loop_run_rows (df : DataFrame) (tc vs : list value) :
  get_col "token" (columns df) = Some tc ->
  forall a st,
    (forall j, j < length vs -> nth (a + j) tc NaN = nth j vs NaN) ->
    loop rng args out_dir digits
      (map (fun i => (i, row_at df i)) (seq a (length vs))) st
    = (run' a vs st, None).
Proof.
  intros Htc. induction vs as [|v r IH]; intros a st Hnth; [reflexivity|].
  unfold run_rows. simpl.
  rewrite series_get_row_at, Htc. simpl.
  pose proof (Hnth 0 ltac:(simpl; lia)) as H0. simpl in H0.
  rewrite Nat.add_0_r in H0. rewrite H0.
  apply IH. intros j Hj.
  specialize (Hnth (S j) ltac:(simpl; lia)). simpl in Hnth.
  now rewrite Nat.add_succ_r in Hnth.
Qed.

Lemma cell_at_set_same df i name v j :
  cell (at_set df i name v) name j
  = match cell df name j with
    | None => None
    | Some old => Some (if i =? j then v else old)
    end.
Proof.
  unfold cell. simpl. rewrite get_at_col_same.
  destruct (get_col name (columns df)) as [c|]; simpl; [|reflexivity].
  rewrite nth_error_list_set.
  destruct (i =? j) eqn:Eij; simpl.
  - destruct (j <? length c) eqn:El.
    + apply Nat.ltb_lt in El. apply nth_error_Some in El.
      now destruct (nth_error c j).
    + apply Nat.ltb_ge in El. apply nth_error_None in El. now rewrite El.
  - now destruct (nth_error c j).
Qed.

Lemma cell_at_set_other df i name other v j :
  other <> name -> cell (at_set df i name v) other j = cell df other j.
Proof.
  intros H. unfold cell. simpl. now rewrite get_at_col_other.
Qed.

Lemma run_rows_files vs : forall a st,
  ls_files (run' a vs st)
  = (ls_files st
     ++ map file'
          (combine (seq a (length vs)) (tokens' vs (ls_draws st))))%list.
Proof.
  induction vs as [|v r IH]; intros a st.
  - simpl. now rewrite app_nil_r.
  - unfold run_rows. simpl. fold (run' (S a) r (body' a v st)).
    rewrite IH, body_eq. simpl. now rewrite <- app_assoc.
Qed.

Lemma run_rows_trace vs : forall a st,
  ls_trace (run' a vs st)
  = (ls_trace st
     ++ flat_map events'
          (combine (seq a (length vs)) (tokens' vs (ls_draws st))))%list.
Proof.
  induction vs as [|v r IH]; intros a st.
  - simpl. now rewrite app_nil_r.
  - unfold run_rows. simpl fold_left. fold (run' (S a) r (body' a v st)).
    rewrite IH, body_eq. cbn [ls_trace ls_draws].
    rewrite <- app_assoc. reflexivity.
Qed.

Lemma body_shape a v st :
  nrows (ls_df (body' a v st)) = nrows (ls_df st)
  /\ map fst (columns (ls_df (body' a v st)))
     = map fst (columns (ls_df st))
  /\ forall other, other <> "token" ->
       get_col other (columns (ls_df (body' a v st)))
       = get_col other (columns (ls_df st)).
Proof.
  rewrite body_eq. cbn [ls_df].
  destruct (needs_token (strip (str_value v))); simpl.
  - rewrite names_at_col. repeat split.
    intros other Ho. now apply get_at_col_other.
  - now repeat split.
Qed.

Lemma run_rows_shape vs : forall a st,
  nrows (ls_df (run' a vs st)) = nrows (ls_df st)
  /\ map fst (columns (ls_df (run' a vs st)))
     = map fst (columns (ls_df st))
  /\ forall other, other <> "token" ->
       get_col other (columns (ls_df (run' a vs st)))
       = get_col other (columns (ls_df st)).
Proof.
  induction vs as [|v r IH]; intros a st; [now repeat split|].
  unfold run_rows. simpl fold_left. fold (run' (S a) r (body' a v st)).
  destruct (IH (S a) (body' a v st)) as [H1 [H2 H3]].
  destruct (body_shape a v st) as [B1 [B2 B3]].
  repeat split; [congruence | congruence |].
  intros other Ho. rewrite (H3 other Ho). now apply B3.
Qed.

(** The token cell of row [j] after the loop: a new token where the row
    needed one, the cell as it was everywhere else. *)
Lemma run_rows_cell vs : forall a st j,
  cell (ls_df (run' a vs st)) "token" j
  = match cell (ls_df st) "token" j with
    | None => None
    | Some old =>
        Some (if (a <=? j) && (j <? a + length vs)
                 && needs_token (strip (str_value (nth (j - a) vs NaN)))
              then VStr (nth (j - a) (tokens' vs (ls_draws st)) EmptyString)
              else old)
    end.
Proof.
  induction vs as [|v r IH]; intros a st j.
  - unfold run_rows. simpl. rewrite Nat.add_0_r.
    destruct (cell (ls_df st) "token" j); [|reflexivity].
    destruct (a <=? j) eqn:E1, (j <? a) eqn:E2; try reflexivity.
    apply Nat.leb_le in E1. apply Nat.ltb_lt in E2. lia.
  - unfold run_rows. simpl fold_left. fold (run' (S a) r (body' a v st)).
    rewrite IH, body_eq. cbn [ls_df ls_draws tokens length].
    destruct (Nat.eq_dec a j) as [->|Hne].
    + replace (S j <=? j) with false by (symmetry; apply Nat.leb_gt; lia).
      rewrite Nat.leb_refl, Nat.sub_diag.
      replace (j <? j + S (length r)) with true
        by (symmetry; apply Nat.ltb_lt; lia).
      cbn [andb nth].
      destruct (needs_token (strip (str_value v))).
      * rewrite cell_at_set_same, Nat.eqb_refl.
        now destruct (cell (ls_df st) "token" j).
      * now destruct (cell (ls_df st) "token" j).
    + assert (Hc : cell (if needs_token (strip (str_value v))
                         then at_set (ls_df st) a "token"
                                (VStr (token' v (ls_draws st)))
                         else ls_df st) "token" j
                   = cell (ls_df st) "token" j).
      { destruct (needs_token _); [|reflexivity].
        rewrite cell_at_set_same.
        apply Nat.eqb_neq in Hne. rewrite Hne.
        now destruct (cell (ls_df st) "token" j). }
      rewrite Hc. destruct (cell (ls_df st) "token" j); [|reflexivity].
      f_equal. destruct (a <=? j) eqn:E1.
      * apply Nat.leb_le in E1.
        replace (S a <=? j) with true by (symmetry; apply Nat.leb_le; lia).
        replace (j <? S a + length r) with (j <? a + S (length r))
          by (f_equal; lia).
        replace (j - a) with (S (j - S a)) by lia. reflexivity.
      * apply Nat.leb_gt in E1.
        replace (S a <=? j) with false by (symmetry; apply Nat.leb_gt; lia).
        reflexivity.
Qed.

Lemma length_tokens vs : forall d, length (tokens' vs d) = length vs.
Proof.
  induction vs as [|v r IH]; intros d; simpl; [|rewrite IH]; reflexivity.
Qed.

(** Each token of the summary is the row's own text stripped, or a
    random token from some point of the random source. *)
Lemma nth_tokens vs : forall d j,
  j < length vs ->
  exists d', nth j (tokens' vs d) EmptyString = token' (nth j vs NaN) d'.
Proof.
  induction vs as [|v r IH]; intros d j Hj; [simpl in Hj; lia|].
  destruct j as [|j]; simpl.
  - now exists d.
  - apply IH. simpl in Hj. lia.
Qed.

End LoopFacts.

(** ** The whole run *)

Section MainFacts.
Import PyStr.

Variable rng : nat -> nat.
Variable args : Args.

Lemma ensure_nrows df : nrows (ensure_token_column df) = nrows df.
Proof. unfold ensure_token_column. now destruct (negb _). Qed.

Lemma ensure_token_col df :
  well_formed df ->
  exists tc,
    get_col "token" (columns (ensure_token_column df)) = Some tc
    /\ length tc = nrows df
    /\ (if has_column "token" df
        then get_col "token" (columns df) = Some tc
        else tc = repeat (VStr EmptyString) (nrows df)).
Proof.
  intros Hwf. unfold ensure_token_column.
  destruct (has_column "token" df) eqn:E; simpl.
  - apply has_column_get in E. destruct E as [tc Htc].
    exists tc. repeat split; [exact Htc | | exact Htc].
    eapply get_col_length; eauto.
  - exists (repeat (VStr EmptyString) (nrows df)).
    rewrite get_set_col_same, repeat_length. now repeat split.
Qed.

Lemma ensure_other df other :
  other <> "token" ->
  get_col other (columns (ensure_token_column df))
  = get_col other (columns df).
Proof.
  intros H. unfold ensure_token_column.
  destruct (negb _); [|reflexivity]. simpl. now apply get_set_col_other.
Qed.

(** On a table with [full_name] the loop runs through every row and the
    run goes on to lines 110-119. *)
Lemma main_eq df :
  has_column "full_name" df = true -> well_formed df ->
  exists tc,
    get_col "token" (columns (ensure_token_column df)) = Some tc
    /\ length tc = nrows df
    /\ main rng args df
       = finish args (out_path args)
           (run_rows rng args (out_path args) (width df) 0 tc (start args df)).
Proof.
  intros Hfn Hwf. destruct (ensure_token_col df Hwf) as [tc [Htc [Hlen _]]].
  exists tc. repeat split; [exact Htc | exact Hlen |].
  unfold main. rewrite Hfn. cbn [negb].
  unfold iterrows. rewrite ensure_nrows, <- Hlen.
  rewrite (loop_run_rows rng args _ _ _ tc tc Htc 0 _ (fun j _ => eq_refl)).
  unfold width, out_path, start. now rewrite Hlen.
Qed.

(** *** The manifest and the trace of a completed run *)

Lemma manifest_of_app_none (l1 l2 : list event) :
  manifest_of l1 = None -> manifest_of (l1 ++ l2) = manifest_of l2.
Proof.
  induction l1 as [|e l1 IH]; [reflexivity|].
  destruct e; simpl; auto; discriminate.
Qed.

Lemma manifest_of_app_some (l1 l2 : list event) (m : DataFrame) :
  manifest_of l1 = Some m -> manifest_of (l1 ++ l2) = Some m.
Proof.
  induction l1 as [|e l1 IH]; [discriminate|].
  destruct e; simpl; auto.
Qed.

Lemma manifest_of_rows (out_dir : Path) (digits : nat)
  (l : list (nat * string)) :
  manifest_of (flat_map (row_events args out_dir digits) l) = None.
Proof.
  induction l as [|it l IH]; [reflexivity|].
  simpl. unfold make_qr. now destruct (format args).
Qed.

Lemma finish_trace (out_dir : Path) (st : LoopState) :
  exists rest,
    trace (finish args out_dir st)
    = (ls_trace st
       ++ ToCsv (output_csv args)
            (setitem (ls_df st) "qr_file" (map VStr (ls_files st)))
       :: PrintLine (MsgWrote (output_csv args)) :: rest)%list.
Proof.
  unfold finish, bundle. destruct (zip args).
  - destruct (PurePath.with_suffix out_dir ".zip") as [zp|]; simpl.
    + destruct (PurePath.eqb zp out_dir); simpl; [now exists []|].
      rewrite <- app_assoc. simpl. eexists. reflexivity.
    + now exists [].
  - now exists [].
Qed.

Lemma finish_manifest (out_dir : Path) (st : LoopState) :
  manifest_of (ls_trace st) = None ->
  manifest (finish args out_dir st)
  = Some (setitem (ls_df st) "qr_file" (map VStr (ls_files st))).
Proof.
  intros H. unfold manifest.
  destruct (finish_trace out_dir st) as [rest ->].
  now rewrite manifest_of_app_none.
Qed.

Lemma nth_error_combine_seq (l : list string) : forall a j,
  j < length l ->
  nth_error (combine (seq a (length l)) l) j
  = Some (a + j, nth j l EmptyString).
Proof.
  induction l as [|x l IH]; intros a j Hj; [simpl in Hj; lia|].
  destruct j as [|j]; simpl.
  - now rewrite Nat.add_0_r.
  - rewrite IH by (simpl in Hj; lia). now rewrite Nat.add_succ_r.
Qed.

Lemma nth_run_files df tc j :
  length tc = nrows df -> j < nrows df ->
  nth_error (run_files rng args df tc) j
  = Some (file_name args j (width df)
            (nth j (run_tokens rng args tc) EmptyString)).
Proof.
  intros Hlen Hj. unfold run_files.
  assert (Hl : length (run_tokens rng args tc) = nrows df)
    by (unfold run_tokens; now rewrite length_tokens).
  rewrite <- Hl.
  apply (map_nth_error (row_file args (width df)) j
           (combine (seq 0 (length (run_tokens rng args tc)))
              (run_tokens rng args tc))
           (d := (j, nth j (run_tokens rng args tc) EmptyString))).
  apply (nth_error_combine_seq (run_tokens rng args tc) 0 j). lia.
Qed.

(** What a run on a table with [full_name] leaves behind. *)
Lemma main_manifest df :
  has_column "full_name" df = true -> well_formed df ->
  exists m tc,
    manifest (main rng args df) = Some m
    /\ get_col "token" (columns (ensure_token_column df)) = Some tc
    /\ length tc = nrows df
    /\ nrows m = nrows df
    /\ get_col "qr_file" (columns m)
       = Some (map VStr (run_files rng args df tc))
    /\ (forall j old, nth_error tc j = Some old ->
         cell m "token" j
         = Some (if needs_token (strip (str_value old))
                 then VStr (nth j (run_tokens rng args tc) EmptyString)
                 else old))
    /\ (forall other, other <> "token" -> other <> "qr_file" ->
         get_col other (columns m) = get_col other (columns df))
    /\ (forall j, j < nrows df ->
         In (make_qr
               (build_url (webapp_url args)
                  (nth j (run_tokens rng args tc) EmptyString))
               (PurePath.joinpath (out_path args)
                  (file_name args j (width df)
                     (nth j (run_tokens rng args tc) EmptyString)))
               (format args))
            (trace (main rng args df))).
Proof.
  intros Hfn Hwf. destruct (main_eq df Hfn Hwf) as [tc [Htc [Hlen Hmain]]].
  set (st := run_rows rng args (out_path args) (width df) 0 tc
               (start args df)) in *.
  assert (Hfiles : ls_files st = run_files rng args df tc).
  { unfold st. rewrite run_rows_files. simpl. now rewrite Hlen. }
  assert (Htrace : ls_trace st
            = (Mkdir (out_path args)
               :: flat_map (row_events args (out_path args) (width df))
                    (combine (seq 0 (nrows df))
                       (run_tokens rng args tc)))%list).
  { unfold st. rewrite run_rows_trace. simpl. now rewrite Hlen. }
  destruct (run_rows_shape rng args (out_path args) (width df) tc 0
              (start args df))
    as [Hn [_ Hother]]. fold st in Hn, Hother.
  exists (setitem (ls_df st) "qr_file" (map VStr (ls_files st))), tc.
  split.
  { rewrite Hmain. apply finish_manifest. rewrite Htrace. simpl.
    apply manifest_of_rows. }
  split; [exact Htc|]. split; [exact Hlen|].
  split. { simpl. rewrite Hn. simpl. apply ensure_nrows. }
  split. { simpl. now rewrite get_set_col_same, Hfiles. }
  split.
  { intros j old Hold. unfold cell at 1. simpl.
    rewrite get_set_col_other by discriminate.
    change (cell (ls_df st) "token" j = Some
              (if needs_token (strip (str_value old))
               then VStr (nth j (run_tokens rng args tc) EmptyString)
               else old)).
    unfold st. rewrite run_rows_cell. unfold cell at 1. simpl.
    rewrite Htc, Hold, Nat.sub_0_r.
    assert (Hj : j < length tc) by (apply nth_error_Some; congruence).
    replace (j <? length tc) with true by (symmetry; now apply Nat.ltb_lt).
    rewrite (nth_error_nth _ _ NaN Hold). reflexivity. }
  split.
  { intros other H1 H2. simpl. rewrite get_set_col_other by exact H2.
    rewrite (Hother other H1). simpl. now apply ensure_other. }
  intros j Hj. rewrite Hmain.
  destruct (finish_trace (out_path args) st) as [rest ->].
  apply in_or_app. left. rewrite Htrace. right.
  apply in_flat_map.
  exists (j, nth j (run_tokens rng args tc) EmptyString). split; [|now left].
  assert (Hl : length (run_tokens rng args tc) = nrows df)
    by (unfold run_tokens; now rewrite length_tokens).
  apply nth_error_In with (n := j). rewrite <- Hl.
  apply (nth_error_combine_seq (run_tokens rng args tc) 0 j). lia.
Qed.

Lemma cell_ensure df i v :
  cell df "token" i = Some v ->
  cell (ensure_token_column df) "token" i = Some v.
Proof.
  intros H. unfold ensure_token_column.
  destruct (has_column "token" df) eqn:E; [exact H|].
  apply has_column_none in E. unfold cell in H. now rewrite E in H.
Qed.

(** One row of a completed run: its token, its manifest cells and its
    image.  [v] is the token cell the loop reads for row [i]. *)
Lemma main_row df i v :
  has_column "full_name" df = true -> well_formed df ->
  cell (ensure_token_column df) "token" i = Some v ->
  exists m tok d,
    manifest (main rng args df) = Some m
    /\ i < nrows df
    /\ tok = token_at rng args v d
    /\ cell m "token" i
       = Some (if needs_token (strip (str_value v)) then VStr tok else v)
    /\ cell m "qr_file" i = Some (VStr (file_name args i (width df) tok))
    /\ In (make_qr (build_url (webapp_url args) tok)
             (PurePath.joinpath (out_path args)
                (file_name args i (width df) tok))
             (format args))
          (trace (main rng args df)).
Proof.
  intros Hfn Hwf Hv.
  destruct (main_manifest df Hfn Hwf)
    as [m [tc [Hm [Htc [Hlen [_ [Hqr [Htok [_ Himg]]]]]]]]].
  unfold cell in Hv. rewrite Htc in Hv.
  assert (Hi : i < nrows df)
    by (rewrite <- Hlen; apply nth_error_Some; congruence).
  destruct (nth_tokens rng args tc 0 i ltac:(lia)) as [d Hd].
  rewrite (nth_error_nth _ _ NaN Hv) in Hd. fold (run_tokens rng args tc) in Hd.
  exists m, (nth i (run_tokens rng args tc) EmptyString), d.
  split; [exact Hm|]. split; [exact Hi|]. split; [exact Hd|].
  split; [now apply Htok|]. split; [|now apply Himg].
  unfold cell. rewrite Hqr.
  rewrite nth_error_map, (nth_run_files df tc i Hlen Hi). reflexivity.
Qed.

End MainFacts.

(** ** Tokens *)

Section TokenFacts.
Import PyStr.

Lemma present_needs (s : string) :
  present s -> needs_token (strip s) = false.
Proof.
  intros [H1 H2]. unfold needs_token.
  apply String.eqb_neq in H1, H2. now rewrite H1, H2.
Qed.

Lemma nan_casing_lower (t : string) : nan_casing t -> lower t = "nan".
Proof.
  intros [c1 [c2 [c3 [-> [[-> | ->] [[-> | ->] [-> | ->]]]]]]]; reflexivity.
Qed.

Lemma absent_needs (v : value) :
  absent_token v -> needs_token (strip (str_value v)) = true.
Proof.
  intros [|s H|s H]; unfold needs_token; simpl str_value.
  - reflexivity.
  - rewrite H. reflexivity.
  - rewrite (nan_casing_lower _ H). apply orb_true_r.
Qed.

Lemma length_string_of_list (l : list ascii) :
  String.length (string_of_list_ascii l) = length l.
Proof. induction l as [|c l IH]; simpl; congruence. Qed.

Lemma all_chars_of_list (p : ascii -> bool) (l : list ascii) :
  Forall (fun c => p c = true) l ->
  all_chars p (string_of_list_ascii l) = true.
Proof.
  induction 1 as [|c l Hc _ IH]; simpl; [reflexivity|]. now rewrite Hc, IH.
Qed.

Lemma all_chars_impl (p q : ascii -> bool) (s : string) :
  (forall c, p c = true -> q c = true) ->
  all_chars p s = true -> all_chars q s = true.
Proof.
  intros Hpq. induction s as [|c s IH]; simpl; [reflexivity|].
  intros H. apply andb_true_iff in H. destruct H as [Hc Hs].
  now rewrite (Hpq c Hc), IH.
Qed.

Variable rng : nat -> nat.

(** Every draw from the alphabet is an uppercase letter or a digit. *)
Lemma choice_alphabet (j : nat) : upper_or_digit (choice rng alphabet j) = true.
Proof.
  unfold choice.
  assert (Hall : forallb upper_or_digit (list_ascii_of_string alphabet) = true)
    by reflexivity.
  rewrite forallb_forall in Hall. apply Hall. apply nth_In.
  change (length (list_ascii_of_string alphabet)) with 36.
  change (String.length alphabet) with 36.
  apply Nat.mod_upper_bound. discriminate.
Qed.

Lemma random_token_length (len : Z) (d : nat) :
  String.length (fst (random_token rng len d)) = Z.to_nat len.
Proof.
  unfold random_token, choices. simpl fst.
  now rewrite length_string_of_list, length_map, length_seq.
Qed.

Lemma random_token_chars (len : Z) (d : nat) :
  all_chars upper_or_digit (fst (random_token rng len d)) = true.
Proof.
  unfold random_token, choices. simpl fst. apply all_chars_of_list.
  apply Forall_forall. intros c Hc. apply in_map_iff in Hc.
  destruct Hc as [j [<- _]]. apply choice_alphabet.
Qed.

End TokenFacts.

(** * The claims *)

Import PyStr.

(** ** A run end to end *)

(** The sample table with the base URL ending in a question mark: three
    images named by ordinal and token, the payload of the first one, and
    the token and file columns of the manifest. *)
Example sample_run_manifest :
  exists m,
    manifest (main sample_rng sample_args sample_df) = Some m
    /\ get_col "token" (columns m)
       = Some [VStr " ABC123 "; VStr "DKRY5CJQ"; VStr "X4BIPW3A"]
    /\ get_col "qr_file" (columns m)
       = Some [VStr "1_ABC123.png"; VStr "2_DKRY5CJQ.png";
               VStr "3_X4BIPW3A.png"]
    /\ In (SaveImage PilImage "https://example.com/x?token=ABC123"
             {| PurePath.root := EmptyString;
                PurePath.parts := ["qr_out"; "1_ABC123.png"] |})
          (trace (main sample_rng sample_args sample_df)).
Proof.
  eexists. split; [reflexivity|]. split; [reflexivity|].
  split; [reflexivity|]. vm_compute. auto.
Qed.

(** ** File names *)

(** C1. On a table that has [full_name] the manifest's [qr_file] column
    has one entry per row, in row order; the entry of the row at 1-based
    position [i + 1] is the ordinal [i + 1] with zeros in front up to the
    decimal width of the row count, then [_], the row's resolved token,
    a dot and the extension of the selected format.  The resolved token
    is the stripped text of a given token, or the new token that the
    manifest records for the row. *)
Theorem qr_file_column (rng : nat -> nat) (args : Args) (df : DataFrame) :
  has_column "full_name" df = true -> well_formed df ->
  exists m col,
    manifest (main rng args df) = Some m
    /\ get_col "qr_file" (columns m) = Some col
    /\ length col = nrows df
    /\ forall i, i < nrows df ->
         exists v tok ordinal,
           cell (ensure_token_column df) "token" i = Some v
           /\ (exists d, tok = token_at rng args v d)
           /\ cell m "token" i
              = Some (if needs_token (strip (str_value v))
                      then VStr tok else v)
           /\ ordinal
              = zeros (String.length (str_nat (nrows df))
                       - String.length (str_nat (i + 1)))
                  ++ str_nat (i + 1)
           /\ String.length ordinal = String.length (str_nat (nrows df))
           /\ nth_error col i
              = Some (VStr (ordinal ++ "_" ++ tok ++ "."
                              ++ format_str (format args))).
Proof.
  intros Hfn Hwf.
  destruct (main_manifest rng args df Hfn Hwf)
    as [m [tc [Hm [Htc [Hlen [_ [Hqr _]]]]]]].
  exists m, (map VStr (run_files rng args df tc)).
  split; [exact Hm|]. split; [exact Hqr|].
  split.
  { unfold run_files. rewrite !length_map, length_combine, length_seq.
    unfold run_tokens. rewrite length_tokens. lia. }
  intros i Hi.
  destruct (nth_error tc i) as [v|] eqn:Hv;
    [|apply nth_error_None in Hv; lia].
  assert (Hcell : cell (ensure_token_column df) "token" i = Some v)
    by (unfold cell; now rewrite Htc).
  destruct (main_row rng args df i v Hfn Hwf Hcell)
    as [m' [tok [d [Hm' [_ [Htok [Hct [Hcq _]]]]]]]].
  rewrite Hm in Hm'. injection Hm' as <-.
  exists v, tok, (zfill (str_nat (i + 1)) (width df)).
  split; [exact Hcell|]. split; [now exists d|]. split; [exact Hct|].
  split; [apply zfill_str_nat|].
  split; [apply zfill_str_nat_length; lia|].
  unfold cell in Hcq. rewrite Hqr in Hcq. exact Hcq.
Qed.

Lemma qr_file_column_witness :
  exists m col,
    manifest (main sample_rng sample_args sample_df) = Some m
    /\ get_col "qr_file" (columns m) = Some col
    /\ length col = nrows sample_df
    /\ forall i, i < nrows sample_df ->
         exists v tok ordinal,
           cell (ensure_token_column sample_df) "token" i = Some v
           /\ (exists d, tok = token_at sample_rng sample_args v d)
           /\ cell m "token" i
              = Some (if needs_token (strip (str_value v))
                      then VStr tok else v)
           /\ ordinal
              = zeros (String.length (str_nat (nrows sample_df))
                       - String.length (str_nat (i + 1)))
                  ++ str_nat (i + 1)
           /\ String.length ordinal
              = String.length (str_nat (nrows sample_df))
           /\ nth_error col i
              = Some (VStr (ordinal ++ "_" ++ tok ++ "."
                              ++ format_str (format sample_args))).
Proof.
  apply (qr_file_column sample_rng sample_args sample_df);
    [reflexivity | apply well_formedb_ok; reflexivity].
Defined.

(** ** Tokens that are given *)

(** C2. A row whose token is given (not blank after stripping, not the
    nan placeholder) has in the manifest's token column the very text it
    came with, blanks around it included. *)
Theorem present_token_kept (rng : nat -> nat) (args : Args) (df : DataFrame)
  (i : nat) (s : string) :
  has_column "full_name" df = true -> well_formed df ->
  cell df "token" i = Some (VStr s) -> present s ->
  exists m,
    manifest (main rng args df) = Some m
    /\ cell m "token" i = Some (VStr s).
Proof.
  intros Hfn Hwf Hc Hp. apply cell_ensure in Hc.
  destruct (main_row rng args df i (VStr s) Hfn Hwf Hc)
    as [m [tok [d [Hm [_ [_ [Hct _]]]]]]].
  exists m. split; [exact Hm|].
  simpl str_value in Hct. now rewrite (present_needs s Hp) in Hct.
Qed.

Lemma present_token_kept_witness :
  exists m,
    manifest (main sample_rng sample_args sample_df) = Some m
    /\ cell m "token" 0 = Some (VStr " ABC123 ").
Proof.
  apply (present_token_kept sample_rng sample_args sample_df 0 " ABC123 ");
    [reflexivity | apply well_formedb_ok; reflexivity | reflexivity
    | split; vm_compute; discriminate].
Defined.

(** C3, as the claim has it, fails: the token " ABC123 " is given, its
    resolved value is "ABC123", and the manifest still records the text
    with the blanks. *)
Lemma stored_token_not_stripped :
  cell sample_df "token" 0 = Some (VStr " ABC123 ")
  /\ present " ABC123 "
  /\ exists m,
       manifest (main sample_rng sample_args sample_df) = Some m
       /\ cell m "token" 0 <> Some (VStr (strip " ABC123 ")).
Proof.
  split; [reflexivity|]. split; [split; vm_compute; discriminate|].
  eexists. split; [reflexivity|]. vm_compute. discriminate.
Qed.

(** C3, amended.  For a row whose token is given the resolver returns the
    stripped text and leaves the table and the random source as they
    are; the manifest records the text as it was read, which is the
    stripped text exactly when there is nothing to strip. *)
Theorem present_token_resolved (rng : nat -> nat) (args : Args)
  (df : DataFrame) (i : nat) (s : string) :
  has_column "full_name" df = true -> well_formed df ->
  cell df "token" i = Some (VStr s) -> present s ->
  (forall table draws,
     resolve rng args i (VStr s) table draws = (strip s, table, draws))
  /\ exists m,
       manifest (main rng args df) = Some m
       /\ cell m "token" i = Some (VStr s)
       /\ (cell m "token" i = Some (VStr (strip s)) <-> strip s = s).
Proof.
  intros Hfn Hwf Hc Hp. split.
  - intros table draws. unfold resolve. simpl str_value.
    now rewrite (present_needs s Hp).
  - apply cell_ensure in Hc.
    destruct (main_row rng args df i (VStr s) Hfn Hwf Hc)
      as [m [tok [d [Hm [_ [_ [Hct _]]]]]]].
    simpl str_value in Hct. rewrite (present_needs s Hp) in Hct.
    exists m. split; [exact Hm|]. split; [exact Hct|].
    rewrite Hct. split; [congruence | now intros ->].
Qed.

Lemma present_token_resolved_witness :
  (forall table draws,
     resolve sample_rng sample_args 0 (VStr " ABC123 ") table draws
     = (strip " ABC123 ", table, draws))
  /\ exists m,
       manifest (main sample_rng sample_args sample_df) = Some m
       /\ cell m "token" 0 = Some (VStr " ABC123 ")
       /\ (cell m "token" 0 = Some (VStr (strip " ABC123 "))
           <-> strip " ABC123 " = " ABC123 ").
Proof.
  apply (present_token_resolved sample_rng sample_args sample_df 0 " ABC123 ");
    [reflexivity | apply well_formedb_ok; reflexivity | reflexivity
    | split; vm_compute; discriminate].
Defined.

(** C10. A row whose given token has whitespace in front or behind gets a
    file name and a QR payload built from the stripped token, while the
    manifest's token column keeps the text with its whitespace: the token
    inside the [qr_file] entry is not the token of the token column. *)
Theorem stripped_token_in_file_name (rng : nat -> nat) (args : Args)
  (df : DataFrame) (i : nat) (s : string) :
  has_column "full_name" df = true -> well_formed df ->
  cell df "token" i = Some (VStr s) -> present s -> outer_space s ->
  exists m,
    manifest (main rng args df) = Some m
    /\ cell m "qr_file" i
       = Some (VStr (file_name args i (String.length (str_nat (nrows df)))
                       (strip s)))
    /\ In (make_qr (build_url (webapp_url args) (strip s))
             (PurePath.joinpath (PurePath.parse (out args))
                (file_name args i (String.length (str_nat (nrows df)))
                   (strip s)))
             (format args))
          (trace (main rng args df))
    /\ cell m "token" i = Some (VStr s)
    /\ strip s <> s.
Proof.
  intros Hfn Hwf Hc Hp Hsp. apply cell_ensure in Hc.
  destruct (main_row rng args df i (VStr s) Hfn Hwf Hc)
    as [m [tok [d [Hm [_ [Htok [Hct [Hcq Himg]]]]]]]].
  unfold token_at in Htok. simpl str_value in Htok, Hct.
  rewrite (present_needs s Hp) in Htok, Hct. subst tok.
  exists m. split; [exact Hm|]. split; [exact Hcq|].
  split; [exact Himg|]. split; [exact Hct|]. now apply strip_changes.
Qed.

Lemma stripped_token_in_file_name_witness :
  exists m,
    manifest (main sample_rng sample_args sample_df) = Some m
    /\ cell m "qr_file" 0
       = Some (VStr (file_name sample_args 0
                       (String.length (str_nat (nrows sample_df)))
                       (strip " ABC123 ")))
    /\ In (make_qr (build_url (webapp_url sample_args) (strip " ABC123 "))
             (PurePath.joinpath (PurePath.parse (out sample_args))
                (file_name sample_args 0
                   (String.length (str_nat (nrows sample_df)))
                   (strip " ABC123 ")))
             (format sample_args))
          (trace (main sample_rng sample_args sample_df))
    /\ cell m "token" 0 = Some (VStr " ABC123 ")
    /\ strip " ABC123 " <> " ABC123 ".
Proof.
  apply (stripped_token_in_file_name sample_rng sample_args sample_df 0
           " ABC123 ");
    [reflexivity | apply well_formedb_ok; reflexivity | reflexivity
    | split; vm_compute; discriminate
    | left; exists " "%char; split; reflexivity].
Defined.

(** ** Tokens that are not given *)

(** C9. The placeholder test ignores letter case: a row whose stripped
    token is nan in any casing is resolved exactly as a row whose token
    is missing, and the manifest records for it a token newly drawn from
    the random source, which is also the token of its file name. *)
Theorem placeholder_any_case (rng : nat -> nat) (args : Args)
  (df : DataFrame) (i : nat) (s : string) :
  has_column "full_name" df = true -> well_formed df ->
  cell df "token" i = Some (VStr s) -> nan_casing (strip s) ->
  (forall table draws,
     resolve rng args i (VStr s) table draws
     = resolve rng args i NaN table draws)
  /\ exists m tok d,
       manifest (main rng args df) = Some m
       /\ tok = fst (random_token rng (token_len args) d)
       /\ cell m "token" i = Some (VStr tok)
       /\ cell m "qr_file" i
          = Some (VStr (file_name args i (String.length (str_nat (nrows df)))
                          tok)).
Proof.
  intros Hfn Hwf Hc Hnan.
  pose proof (absent_needs (VStr s) (absent_placeholder s Hnan)) as Hneed.
  simpl str_value in Hneed. split.
  - intros table draws. unfold resolve. simpl str_value.
    rewrite Hneed. reflexivity.
  - apply cell_ensure in Hc.
    destruct (main_row rng args df i (VStr s) Hfn Hwf Hc)
      as [m [tok [d [Hm [_ [Htok [Hct [Hcq _]]]]]]]].
    unfold token_at in Htok. simpl str_value in Htok, Hct.
    rewrite Hneed in Htok, Hct.
    exists m, tok, d. now repeat split.
Qed.

Lemma placeholder_any_case_witness :
  (forall table draws,
     resolve sample_rng sample_args 2 (VStr " NaN") table draws
     = resolve sample_rng sample_args 2 NaN table draws)
  /\ exists m tok d,
       manifest (main sample_rng sample_args sample_df) = Some m
       /\ tok = fst (random_token sample_rng (token_len sample_args) d)
       /\ cell m "token" 2 = Some (VStr tok)
       /\ cell m "qr_file" 2
          = Some (VStr (file_name sample_args 2
                          (String.length (str_nat (nrows sample_df))) tok)).
Proof.
  apply (placeholder_any_case sample_rng sample_args sample_df 2 " NaN");
    [reflexivity | apply well_formedb_ok; reflexivity | reflexivity
    | exists "N"%char, "a"%char, "N"%char; vm_compute; auto].
Defined.

(** With [--token-len -1], which the parser accepts, [random.choices]
    gives no element and the new token is empty. *)
Example negative_length_token :
  cell sample_df "token" 1 = Some NaN
  /\ absent_token NaN
  /\ exists m,
       manifest (main sample_rng negative_len_args sample_df) = Some m
       /\ cell m "token" 1 = Some (VStr EmptyString).
Proof.
  split; [reflexivity|]. split; [constructor|].
  eexists. split; reflexivity.
Qed.

(** C5. For a row whose token is blank, missing or the placeholder the
    manifest records a token of exactly the length the caller gave (a
    length: a number that is not negative), made only of uppercase ASCII
    letters and decimal digits. *)
Theorem generated_token_shape (rng : nat -> nat) (args : Args)
  (df : DataFrame) (i : nat) (v : value) :
  has_column "full_name" df = true -> well_formed df ->
  cell (ensure_token_column df) "token" i = Some v -> absent_token v ->
  (0 <= token_len args)%Z ->
  exists m tok,
    manifest (main rng args df) = Some m
    /\ cell m "token" i = Some (VStr tok)
    /\ Z.of_nat (String.length tok) = token_len args
    /\ all_chars upper_or_digit tok = true.
Proof.
  intros Hfn Hwf Hc Habs Hlen.
  pose proof (absent_needs v Habs) as Hneed.
  destruct (main_row rng args df i v Hfn Hwf Hc)
    as [m [tok [d [Hm [_ [Htok [Hct _]]]]]]].
  unfold token_at in Htok. rewrite Hneed in Htok, Hct. subst tok.
  eexists. eexists. split; [exact Hm|]. split; [exact Hct|].
  split; [|apply random_token_chars].
  rewrite random_token_length. lia.
Qed.

Lemma generated_token_shape_witness :
  exists m tok,
    manifest (main sample_rng sample_args sample_df) = Some m
    /\ cell m "token" 1 = Some (VStr tok)
    /\ Z.of_nat (String.length tok) = token_len sample_args
    /\ all_chars upper_or_digit tok = true.
Proof.
  apply (generated_token_shape sample_rng sample_args sample_df 1 NaN);
    [reflexivity | apply well_formedb_ok; reflexivity | reflexivity
    | exact absent_missing | simpl; lia].
Defined.

(** ** The required column *)

(** C4. On a table without [full_name] the run ends in [sys.exit] with a
    message that names the column and with a nonzero exit status; nothing
    has been done by then: no directory made, no image saved, no manifest
    written. *)
Theorem missing_full_name_aborts (rng : nat -> nat) (args : Args)
  (df : DataFrame) :
  has_column "full_name" df = false ->
  result (main rng args df) = SystemExit missing_full_name
  /\ (exists pre post, missing_full_name = pre ++ "full_name" ++ post)
  /\ exit_status (result (main rng args df)) <> 0%Z
  /\ trace (main rng args df) = []
  /\ manifest (main rng args df) = None.
Proof.
  intros H. unfold manifest, main. rewrite H. simpl.
  repeat split; try discriminate.
  exists ("[error] CSV m" ++ String (ascii_of_nat 229) "ste ha kolumnen '"),
    "'".
  reflexivity.
Qed.

Lemma missing_full_name_aborts_witness :
  result (main sample_rng sample_args no_names)
  = SystemExit missing_full_name
  /\ (exists pre post, missing_full_name = pre ++ "full_name" ++ post)
  /\ exit_status (result (main sample_rng sample_args no_names)) <> 0%Z
  /\ trace (main sample_rng sample_args no_names) = []
  /\ manifest (main sample_rng sample_args no_names) = None.
Proof.
  apply (missing_full_name_aborts sample_rng sample_args no_names).
  reflexivity.
Defined.

(** ** The URL *)

(** C6. For every base and token the URL is the base without its
    trailing question marks, then [?token=], then the token: the base
    splits into a front that does not end in a question mark and a tail
    of question marks only, and the URL starts with that front.  Nothing
    about the base is checked. *)
Theorem url_builder_spec (base token : string) :
  exists front tail,
    base = front ++ tail
    /\ all_chars (Ascii.eqb "?") tail = true
    /\ (forall c, last_char front = Some c -> c <> "?"%char)
    /\ build_url base token = front ++ "?token=" ++ token.
Proof.
  destruct (rstrip_by_split (mem_char "?") base) as [tail [Hsplit Hall]].
  exists (rstrip "?" base), tail.
  split; [exact Hsplit|]. split.
  - revert Hall. apply all_chars_impl. intros c. unfold mem_char. simpl.
    rewrite orb_false_r, Ascii.eqb_sym. auto.
  - split; [|reflexivity].
    intros c Hlast ->. apply rstrip_by_last in Hlast. discriminate.
Qed.

(** ** The archive *)

Lemma rows_no_zip (args : Args) (out_dir : Path) (digits : nat)
  (l : list (nat * string)) :
  existsb is_zip (flat_map (row_events args out_dir digits) l) = false.
Proof.
  induction l as [|it l IH]; [reflexivity|].
  simpl. rewrite IH. unfold make_qr. now destruct (format args).
Qed.

(** X15. Without [--zip] no run creates an archive. *)
Lemma no_archive_unless_requested (rng : nat -> nat) (args : Args)
  (df : DataFrame) :
  zip args = false -> existsb is_zip (trace (main rng args df)) = false.
Proof.
  intros Hz. unfold main.
  destruct (negb (has_column "full_name" df)); [reflexivity|].
  remember (ensure_token_column df) as df1 eqn:E1. clear E1.
  remember (PurePath.parse (out args)) as od eqn:E2. clear E2.
  remember (String.length (str_nat (nrows df1))) as w eqn:E3. clear E3.
  assert (Hbody : forall idx v st,
            existsb is_zip (ls_trace st) = false ->
            existsb is_zip (ls_trace (body rng args od w idx v st)) = false).
  { intros idx v st H. rewrite body_eq. cbn [ls_trace].
    rewrite existsb_app, H. unfold row_events, make_qr.
    now destruct (format args). }
  assert (Hloop : forall rows st,
            existsb is_zip (ls_trace st) = false ->
            existsb is_zip (ls_trace (fst (loop rng args od w rows st)))
            = false).
  { induction rows as [|[idx row] rows IH]; intros st H; [exact H|].
    simpl. destruct (series_get "token" row); [|exact H].
    apply IH. now apply Hbody. }
  specialize (Hloop (iterrows df1)
                {| ls_df := df1; ls_draws := 0; ls_files := [];
                   ls_trace := [Mkdir od] |} eq_refl).
  destruct (loop rng args od w (iterrows df1) _) as [st [e|]];
    simpl in Hloop; [exact Hloop|].
  unfold finish. rewrite Hz. simpl. rewrite existsb_app, Hloop. reflexivity.
Qed.

Lemma not_in_zip (l : list event) (zp : Path) (method : compression)
  (entries : list (Path * string)) :
  existsb is_zip l = false -> ~ In (ZipFile zp method entries) l.
Proof.
  intros H Hin.
  assert (Ht : existsb is_zip l = true)
    by (apply existsb_exists; now exists (ZipFile zp method entries)).
  congruence.
Qed.

(** X16. Any archive a run writes has this shape: it was asked for with
    [--zip]; it is deflated; its path is the image directory's path with
    the suffix [.zip], and not that directory itself; it holds, in row
    order, the files the manifest names in [qr_file], each read from the
    image directory and stored under its bare name; the manifest was
    written before it, and only its progress line follows it. *)
Theorem archive_event_shape (rng : nat -> nat) (args : Args)
  (df : DataFrame) (zp : Path) (method : compression)
  (entries : list (Path * string)) :
  has_column "full_name" df = true -> well_formed df ->
  In (ZipFile zp method entries) (trace (main rng args df)) ->
  zip args = true
  /\ method = ZIP_DEFLATED
  /\ PurePath.with_suffix (PurePath.parse (out args)) ".zip" = Some zp
  /\ PurePath.eqb zp (PurePath.parse (out args)) = false
  /\ exists before m files,
       trace (main rng args df)
       = (before
          ++ [ZipFile zp method entries; PrintLine (MsgCreated zp)])%list
       /\ existsb is_zip before = false
       /\ manifest_of before = Some m
       /\ get_col "qr_file" (columns m) = Some (map VStr files)
       /\ entries
          = map (fun name =>
                   (PurePath.joinpath (PurePath.parse (out args)) name,
                    name)) files.
Proof.
  intros Hfn Hwf Hin.
  destruct (main_eq rng args df Hfn Hwf) as [tc [Htc [Hlen Hmain]]].
  set (st := run_rows rng args (out_path args) (width df) 0 tc
               (start args df)) in *.
  assert (Htrace : ls_trace st
            = (Mkdir (out_path args)
               :: flat_map (row_events args (out_path args) (width df))
                    (combine (seq 0 (nrows df))
                       (tokens rng args tc 0)))%list).
  { unfold st. rewrite run_rows_trace. simpl. now rewrite Hlen. }
  set (m := setitem (ls_df st) "qr_file" (map VStr (ls_files st))) in *.
  set (tr := (ls_trace st
              ++ [ToCsv (output_csv args) m;
                  PrintLine (MsgWrote (output_csv args))])%list) in *.
  assert (Hnz : existsb is_zip tr = false).
  { unfold tr. rewrite existsb_app, Htrace. simpl. rewrite orb_false_r.
    apply rows_no_zip. }
  assert (Hman : manifest_of tr = Some m).
  { unfold tr. rewrite manifest_of_app_none; [reflexivity|].
    rewrite Htrace. simpl. apply manifest_of_rows. }
  rewrite Hmain in *. unfold finish, bundle in *.
  fold m in Hin |- *. fold tr in Hin |- *. unfold out_path in *.
  destruct (zip args); [|now apply not_in_zip in Hin].
  destruct (PurePath.with_suffix (PurePath.parse (out args)) ".zip")
    as [zp'|]; [|now apply not_in_zip in Hin].
  destruct (PurePath.eqb zp' (PurePath.parse (out args))) eqn:Eq;
    [now apply not_in_zip in Hin|].
  cbn [trace] in Hin |- *. apply in_app_or in Hin.
  destruct Hin as [Hin | [Hin | [Hin | []]]];
    [now apply not_in_zip in Hin | | discriminate].
  injection Hin as -> <- <-.
  split; [reflexivity|]. split; [reflexivity|]. split; [reflexivity|].
  split; [exact Eq|].
  exists tr, m, (ls_files st). split; [reflexivity|].
  split; [exact Hnz|]. split; [exact Hman|]. split; [|reflexivity].
  unfold m. simpl. apply get_set_col_same.
Qed.

(** The other way the archive step fails: with [--out imgs.zip] the path
    of the archive is the image directory itself, and nothing is written
    as an archive. *)
Example archive_path_is_directory :
  let args := {| csv := "people.csv"; webapp_url := "https://example.com/x";
                 out := "imgs.zip"; format := png; token_len := 8;
                 zip := true; output_csv := "output.csv" |} in
  result (main sample_rng args sample_df) = Raised IsADirectoryError
  /\ existsb is_zip (trace (main sample_rng args sample_df)) = false.
Proof. split; reflexivity. Qed.

(** C7 does not hold on the code.  With [--out .] and [--zip] the images
    and the manifest are written, then [with_suffix] finds no name in the
    path of the directory and raises: the run ends in [ValueError] and no
    archive has been created. *)
Theorem archive_missing_for_dot_dir :
  zip dot_dir_args = true
  /\ result (main sample_rng dot_dir_args sample_df) = Raised ValueError
  /\ existsb is_zip (trace (main sample_rng dot_dir_args sample_df)) = false
  /\ manifest (main sample_rng dot_dir_args sample_df) <> None.
Proof.
  split; [reflexivity|]. split; [reflexivity|]. split; [reflexivity|].
  vm_compute. discriminate.
Qed.

(** ** Optional columns *)

(** C8, as the claim has it, fails: a table with [full_name] alone gets
    a [token] column and no [email] column, neither in the rows the loop
    reads nor in the manifest. *)
Lemma email_column_not_created :
  has_column "email" names_only = false
  /\ has_column "email" (ensure_token_column names_only) = false
  /\ series_get "email" (row_at (ensure_token_column names_only) 0) = None
  /\ exists m,
       manifest (main sample_rng sample_args names_only) = Some m
       /\ has_column "email" m = false.
Proof.
  repeat split. eexists. split; reflexivity.
Qed.

(** C8, amended.  Before the rows are processed a table without a
    [token] column gets one, empty in every row, and a table that has
    one is left as it is; so every row the loop reads has a token field.
    No [email] column is ever created: the table has one afterwards
    exactly when it came with one. *)
Theorem token_column_ensured (df : DataFrame) :
  has_column "token" (ensure_token_column df) = true
  /\ (if has_column "token" df
      then ensure_token_column df = df
      else get_col "token" (columns (ensure_token_column df))
           = Some (repeat (VStr EmptyString) (nrows df)))
  /\ (forall i, series_get "token" (row_at (ensure_token_column df) i)
                <> None)
  /\ has_column "email" (ensure_token_column df) = has_column "email" df.
Proof.
  assert (Htok : has_column "token" (ensure_token_column df) = true).
  { unfold ensure_token_column.
    destruct (has_column "token" df) eqn:E; simpl; [exact E|].
    apply has_column_get. eexists. simpl. apply get_set_col_same. }
  split; [exact Htok|]. split.
  { unfold ensure_token_column.
    destruct (has_column "token" df); simpl; [reflexivity|].
    apply get_set_col_same. }
  split.
  { intros i. rewrite series_get_row_at.
    apply has_column_get in Htok. destruct Htok as [c ->]. discriminate. }
  destruct (has_column "email" (ensure_token_column df)) eqn:E.
  - apply has_column_get in E. destruct E as [c Hc].
    rewrite ensure_other in Hc by discriminate.
    symmetry. apply has_column_get. now exists c.
  - apply has_column_none in E. rewrite ensure_other in E by discriminate.
    symmetry. now apply has_column_none.
Qed.

(** * Further properties of the program *)

(** ** More on text *)

Section MoreText.
Import PyStr.

Lemma app_inj_length (s t x y : string) :
  s ++ x = t ++ y -> String.length s = String.length t -> s = t.
Proof.
  revert t. induction s as [|c s IH]; intros [|d t] H Hl;
    try discriminate; [reflexivity|].
  simpl in H. injection H as -> H. simpl in Hl.
  f_equal. apply IH; [exact H | lia].
Qed.

Lemma prefix_of_app (s t : string) :
  prefix_of (String.length s) (s ++ t) = s.
Proof.
  unfold prefix_of. induction s as [|c s IH]; simpl.
  - now destruct t.
  - now rewrite IH.
Qed.

Lemma int_acc_app (s t : string) : forall acc,
  int_acc acc (s ++ t) = int_acc (int_acc acc s) t.
Proof.
  induction s as [|c s IH]; intros acc; simpl; [reflexivity | apply IH].
Qed.

Lemma digit_value_digit (d : nat) : d < 10 -> digit_value (digit d) = d.
Proof.
  intros H. do 10 (destruct d as [|d]; [reflexivity|]). lia.
Qed.

Lemma int_acc_zeros (k : nat) : int_acc 0 (zeros k) = 0.
Proof. induction k as [|k IH]; [reflexivity | exact IH]. Qed.

Lemma int_of_dec (f n : nat) : n < f -> int_of_str (dec f n) = n.
Proof.
  unfold int_of_str. revert n. induction f as [|f IH]; intros n H; [lia|].
  cbn [dec]. destruct (n <? 10) eqn:E.
  - apply Nat.ltb_lt in E. cbn [int_acc].
    rewrite digit_value_digit by exact E. lia.
  - apply Nat.ltb_ge in E.
    assert (n / 10 < n) by (apply Nat.div_lt; lia).
    rewrite int_acc_app, IH by lia. cbn [int_acc].
    rewrite digit_value_digit by (apply Nat.mod_upper_bound; lia).
    symmetry. apply Nat.div_mod_eq.
Qed.

(** A zero-filled decimal numeral reads back as the number. *)
Lemma int_of_zfill (n width : nat) :
  int_of_str (zfill (str_nat n) width) = n.
Proof.
  rewrite zfill_str_nat. unfold int_of_str.
  rewrite int_acc_app, int_acc_zeros.
  apply (int_of_dec (S n) n). lia.
Qed.

Lemma rstrip_by_app_last (p : ascii -> bool) (s : string) (c : ascii) :
  p c = true -> rstrip_by p (s ++ String c EmptyString) = rstrip_by p s.
Proof.
  intros Hc. induction s as [|d s IH]; simpl.
  - now rewrite Hc.
  - now rewrite IH.
Qed.

Lemma rstrip_by_id (p : ascii -> bool) (s : string) :
  (forall c, last_char s = Some c -> p c = false) -> rstrip_by p s = s.
Proof.
  induction s as [|d s IH]; intros H; [reflexivity|].
  simpl. destruct s as [|e s].
  - simpl. now rewrite (H d eq_refl).
  - rewrite IH; [reflexivity|]. intros c Hc. apply H. exact Hc.
Qed.

Lemma lstrip_by_id (p : ascii -> bool) (s : string) :
  (forall c, head_char s = Some c -> p c = false) -> lstrip_by p s = s.
Proof.
  destruct s as [|d s]; intros H; [reflexivity|].
  simpl. now rewrite (H d eq_refl).
Qed.

Lemma lstrip_by_head (p : ascii -> bool) (s : string) (c : ascii) :
  head_char (lstrip_by p s) = Some c -> p c = false.
Proof.
  induction s as [|d s IH]; [discriminate|].
  simpl. destruct (p d) eqn:E; [exact IH|].
  simpl. intros H. now injection H as <-.
Qed.

Lemma rstrip_by_head (p : ascii -> bool) (s : string) (c : ascii) :
  head_char (rstrip_by p s) = Some c -> head_char s = Some c.
Proof.
  destruct s as [|d s]; [discriminate|].
  simpl. destruct (rstrip_by p s); [|now simpl].
  destruct (p d); [discriminate | now simpl].
Qed.

(** What [strip] returns has no whitespace at either end. *)
Lemma strip_no_outer_space (s : string) : ~ outer_space (strip s).
Proof.
  unfold strip. intros [[c [Hh Hc]] | [c [Hl Hc]]].
  - apply rstrip_by_head, lstrip_by_head in Hh. congruence.
  - apply rstrip_by_last in Hl. congruence.
Qed.

Lemma strip_id (s : string) : ~ outer_space s -> strip s = s.
Proof.
  intros H. unfold strip. rewrite lstrip_by_id.
  - apply rstrip_by_id. intros c Hc.
    destruct (is_space c) eqn:E; [|reflexivity].
    elim H. right. now exists c.
  - intros c Hc. destruct (is_space c) eqn:E; [|reflexivity].
    elim H. left. now exists c.
Qed.

Lemma strip_idempotent (s : string) : strip (strip s) = strip s.
Proof. apply strip_id, strip_no_outer_space. Qed.

Lemma all_chars_head (p : ascii -> bool) (s : string) (c : ascii) :
  all_chars p s = true -> head_char s = Some c -> p c = true.
Proof.
  destruct s as [|d s]; [discriminate|]. simpl.
  intros H E. injection E as <-. now apply andb_true_iff in H.
Qed.

Lemma all_chars_last (p : ascii -> bool) (s : string) (c : ascii) :
  all_chars p s = true -> last_char s = Some c -> p c = true.
Proof.
  induction s as [|d s IH]; [discriminate|].
  intros H. simpl in H. apply andb_true_iff in H. destruct H as [Hd Hs].
  rewrite last_char_cons. destruct (last_char s) as [e|] eqn:E.
  - intros H. injection H as <-. now apply IH.
  - intros H. now injection H as <-.
Qed.

Lemma upper_or_digit_not_space (c : ascii) :
  upper_or_digit c = true -> is_space c = false.
Proof.
  unfold upper_or_digit, is_space. generalize (ord c). intros n H.
  apply orb_true_iff in H.
  destruct H as [H | H]; apply andb_true_iff in H; destruct H as [H1 H2];
    apply Nat.leb_le in H1, H2;
    repeat match goal with
    | |- context [?a <=? ?b] =>
        destruct (Nat.leb_spec a b); try lia
    | |- context [?a =? ?b] =>
        destruct (Nat.eqb_spec a b); try lia
    end; reflexivity.
Qed.

Lemma upper_or_digit_no_outer_space (s : string) :
  all_chars upper_or_digit s = true -> ~ outer_space s.
Proof.
  intros H [[c [Hh Hc]] | [c [Hl Hc]]].
  - apply (all_chars_head _ _ _ H), upper_or_digit_not_space in Hh. congruence.
  - apply (all_chars_last _ _ _ H), upper_or_digit_not_space in Hl. congruence.
Qed.

End MoreText.

(** ** More on the run *)

Section MoreRun.

Variable rng : nat -> nat.
Variable args : Args.

Lemma saved_images_app (l1 l2 : list event) :
  saved_images (l1 ++ l2) = (saved_images l1 ++ saved_images l2)%list.
Proof.
  induction l1 as [|e l1 IH]; [reflexivity|].
  destruct e; simpl; now rewrite IH.
Qed.

Lemma make_qr_factory (data : string) (path : Path) (fmt : Format) :
  make_qr data path fmt = SaveImage (factory_of fmt) data path.
Proof. now destruct fmt. Qed.

(** The image of one row: factory, payload and path. *)
Lemma saved_images_rows (out_dir : Path) (digits : nat)
  (l : list (nat * string)) :
  saved_images (flat_map (row_events args out_dir digits) l)
  = map (fun it =>
           (factory_of (format args),
            build_url (webapp_url args) (snd it),
            PurePath.joinpath out_dir
              (file_name args (fst it) digits (snd it)))) l.
Proof.
  induction l as [|it l IH]; [reflexivity|].
  simpl. rewrite make_qr_factory. simpl. now rewrite IH.
Qed.

Lemma finish_trace_rest (out_dir : Path) (st : LoopState) :
  exists rest,
    trace (finish args out_dir st)
    = (ls_trace st
       ++ ToCsv (output_csv args)
            (setitem (ls_df st) "qr_file" (map VStr (ls_files st)))
       :: PrintLine (MsgWrote (output_csv args)) :: rest)%list
    /\ saved_images rest = []
    /\ manifest_of rest = None.
Proof.
  unfold finish, bundle. destruct (zip args).
  - destruct (PurePath.with_suffix out_dir ".zip") as [zp|]; simpl.
    + destruct (PurePath.eqb zp out_dir); simpl; [now exists []|].
      rewrite <- app_assoc. simpl. eexists. split; [reflexivity|]. now split.
    + now exists [].
  - now exists [].
Qed.

(** The trace of a run on a table with [full_name]: the directory, two
    events per row, the manifest, and whatever the archive step adds. *)
Lemma main_trace df :
  has_column "full_name" df = true -> well_formed df ->
  exists tc m rest,
    get_col "token" (columns (ensure_token_column df)) = Some tc
    /\ length tc = nrows df
    /\ manifest (main rng args df) = Some m
    /\ get_col "qr_file" (columns m)
       = Some (map VStr (run_files rng args df tc))
    /\ trace (main rng args df)
       = (Mkdir (out_path args)
          :: flat_map (row_events args (out_path args) (width df))
               (combine (seq 0 (nrows df)) (run_tokens rng args tc))
          ++ ToCsv (output_csv args) m
          :: PrintLine (MsgWrote (output_csv args)) :: rest)%list
    /\ saved_images rest = []
    /\ manifest_of rest = None.
Proof.
  intros Hfn Hwf.
  destruct (main_manifest rng args df Hfn Hwf)
    as [m [tc [Hm [Htc [Hlen [_ [Hqr _]]]]]]].
  destruct (main_eq rng args df Hfn Hwf) as [tc' [Htc' [_ Hmain]]].
  rewrite Htc in Htc'. injection Htc' as <-.
  set (st := run_rows rng args (out_path args) (width df) 0 tc
               (start args df)) in *.
  assert (Htrace : ls_trace st
            = (Mkdir (out_path args)
               :: flat_map (row_events args (out_path args) (width df))
                    (combine (seq 0 (nrows df))
                       (run_tokens rng args tc)))%list).
  { unfold st. rewrite run_rows_trace. simpl. now rewrite Hlen. }
  destruct (finish_trace_rest (out_path args) st) as [rest [Htr [Hs Hn]]].
  exists tc, m, rest.
  split; [exact Htc|]. split; [exact Hlen|]. split; [exact Hm|].
  split; [exact Hqr|]. split; [|now split].
  rewrite Hmain, Htr, Htrace. simpl. do 3 f_equal.
  unfold manifest in Hm. rewrite Hmain, Htr in Hm.
  rewrite manifest_of_app_none in Hm
    by (rewrite Htrace; simpl; apply manifest_of_rows).
  simpl in Hm. now injection Hm as ->.
Qed.

Lemma length_run_tokens df tc :
  length tc = nrows df ->
  length (combine (seq 0 (nrows df)) (run_tokens rng args tc)) = nrows df.
Proof.
  intros H. unfold run_tokens.
  rewrite length_combine, length_seq, length_tokens. lia.
Qed.

End MoreRun.

Section RowFacts.

Variable rng : nat -> nat.
Variable args : Args.

Lemma needs_token_nan : needs_token (strip (str_value NaN)) = true.
Proof. reflexivity. Qed.

Lemma random_token_strip (d : nat) :
  strip (fst (random_token rng (token_len args) d))
  = fst (random_token rng (token_len args) d).
Proof.
  apply strip_id, upper_or_digit_no_outer_space, random_token_chars.
Qed.

(** Row by row: the manifest records a text as token, and the token the
    row's file name and payload are built from is that text stripped. *)
Lemma manifest_token_stripped df :
  has_column "full_name" df = true -> well_formed df ->
  exists m tc,
    manifest (main rng args df) = Some m
    /\ get_col "token" (columns (ensure_token_column df)) = Some tc
    /\ length tc = nrows df
    /\ forall i, i < nrows df ->
         exists s,
           cell m "token" i = Some (VStr s)
           /\ nth i (run_tokens rng args tc) EmptyString = strip s
           /\ ((0 < token_len args)%Z -> strip s <> EmptyString).
Proof.
  intros Hfn Hwf.
  destruct (main_manifest rng args df Hfn Hwf)
    as [m [tc [Hm [Htc [Hlen [_ [_ [Htok _]]]]]]]].
  exists m, tc. split; [exact Hm|]. split; [exact Htc|].
  split; [exact Hlen|]. intros i Hi.
  destruct (nth_error tc i) as [v|] eqn:Hv;
    [|apply nth_error_None in Hv; lia].
  specialize (Htok i v Hv).
  destruct (nth_tokens rng args tc 0 i ltac:(lia)) as [d Hd].
  rewrite (nth_error_nth _ _ NaN Hv) in Hd.
  fold (run_tokens rng args tc) in Hd. unfold token_at in Hd.
  destruct (needs_token (strip (str_value v))) eqn:Hneed.
  - exists (nth i (run_tokens rng args tc) EmptyString).
    split; [exact Htok|]. rewrite Hd. split.
    + symmetry. apply random_token_strip.
    + intros Hpos E. rewrite random_token_strip in E.
      pose proof (random_token_length rng (token_len args) d) as Hl.
      rewrite E in Hl. simpl in Hl. lia.
  - destruct v as [s|]; [|now rewrite needs_token_nan in Hneed].
    exists s. split; [exact Htok|]. split; [exact Hd|].
    intros _ E. simpl in Hneed. rewrite E in Hneed. discriminate.
Qed.

End RowFacts.

(** * Further theorems *)

(** ** Images and manifest *)

(** X1. No two rows get the same file name: the [qr_file] column of the
    manifest has no duplicates, so no image overwrites another. *)
Theorem file_names_distinct (rng : nat -> nat) (args : Args)
  (df : DataFrame) :
  has_column "full_name" df = true -> well_formed df ->
  exists m col,
    manifest (main rng args df) = Some m
    /\ get_col "qr_file" (columns m) = Some col
    /\ NoDup col.
Proof.
  intros Hfn Hwf.
  destruct (main_manifest rng args df Hfn Hwf)
    as [m [tc [Hm [Htc [Hlen [_ [Hqr _]]]]]]].
  exists m, (map VStr (run_files rng args df tc)).
  split; [exact Hm|]. split; [exact Hqr|].
  assert (Hcol : length (map VStr (run_files rng args df tc)) = nrows df).
  { unfold run_files. rewrite !length_map. now apply length_run_tokens. }
  apply NoDup_nth_error. intros i j Hi Heq. rewrite Hcol in Hi.
  assert (Hj : j < nrows df).
  { destruct (Nat.lt_ge_cases j (nrows df)) as [H|H]; [exact H|].
    rewrite <- Hcol in H. apply nth_error_None in H.
    rewrite H in Heq. apply nth_error_None in Heq. lia. }
  rewrite !nth_error_map in Heq.
  rewrite (nth_run_files rng args df tc i Hlen Hi) in Heq.
  rewrite (nth_run_files rng args df tc j Hlen Hj) in Heq.
  simpl in Heq. injection Heq as Heq. unfold file_name in Heq.
  apply app_inj_length in Heq.
  - apply (f_equal int_of_str) in Heq. rewrite !int_of_zfill in Heq. lia.
  - unfold width. rewrite !zfill_str_nat_length by lia. reflexivity.
Qed.

Lemma file_names_distinct_witness :
  exists m col,
    manifest (main sample_rng sample_args sample_df) = Some m
    /\ get_col "qr_file" (columns m) = Some col
    /\ NoDup col.
Proof.
  apply (file_names_distinct sample_rng sample_args sample_df);
    [reflexivity | apply well_formedb_ok; reflexivity].
Defined.

(** X2. A run saves one image per row, in row order, and the paths it
    saves them at are the manifest's [qr_file] entries joined to the
    output directory. *)
Theorem images_match_manifest (rng : nat -> nat) (args : Args)
  (df : DataFrame) :
  has_column "full_name" df = true -> well_formed df ->
  exists m files,
    manifest (main rng args df) = Some m
    /\ get_col "qr_file" (columns m) = Some (map VStr files)
    /\ length (saved_images (trace (main rng args df))) = nrows df
    /\ map snd (saved_images (trace (main rng args df)))
       = map (PurePath.joinpath (PurePath.parse (out args))) files.
Proof.
  intros Hfn Hwf.
  destruct (main_trace rng args df Hfn Hwf)
    as [tc [m [rest [Htc [Hlen [Hm [Hqr [Htr [Hrest _]]]]]]]]].
  exists m, (run_files rng args df tc).
  split; [exact Hm|]. split; [exact Hqr|].
  rewrite Htr. cbn [saved_images].
  rewrite saved_images_app, saved_images_rows. cbn [saved_images].
  rewrite Hrest, app_nil_r. split.
  - rewrite length_map. now apply length_run_tokens.
  - unfold run_files. rewrite !map_map. reflexivity.
Qed.

Lemma images_match_manifest_witness :
  exists m files,
    manifest (main sample_rng sample_args sample_df) = Some m
    /\ get_col "qr_file" (columns m) = Some (map VStr files)
    /\ length (saved_images (trace (main sample_rng sample_args sample_df)))
       = nrows sample_df
    /\ map snd (saved_images (trace (main sample_rng sample_args sample_df)))
       = map (PurePath.joinpath (PurePath.parse (out sample_args))) files.
Proof.
  apply (images_match_manifest sample_rng sample_args sample_df);
    [reflexivity | apply well_formedb_ok; reflexivity].
Defined.

(** X3. Manifest, file name and payload of a row agree on the token: the
    manifest records a text [s] as the row's token, and both the row's
    [qr_file] entry and the payload of the image saved for the row are
    built from [s] stripped. *)
Theorem payload_carries_manifest_token (rng : nat -> nat) (args : Args)
  (df : DataFrame) (i : nat) :
  has_column "full_name" df = true -> well_formed df -> i < nrows df ->
  exists m s,
    manifest (main rng args df) = Some m
    /\ cell m "token" i = Some (VStr s)
    /\ cell m "qr_file" i
       = Some (VStr (file_name args i (String.length (str_nat (nrows df)))
                       (strip s)))
    /\ nth_error (saved_images (trace (main rng args df))) i
       = Some (factory_of (format args),
               build_url (webapp_url args) (strip s),
               PurePath.joinpath (PurePath.parse (out args))
                 (file_name args i (String.length (str_nat (nrows df)))
                    (strip s))).
Proof.
  intros Hfn Hwf Hi.
  destruct (manifest_token_stripped rng args df Hfn Hwf)
    as [m [tc [Hm [Htc [Hlen Hrow]]]]].
  destruct (Hrow i Hi) as [s [Hs [Hstrip _]]].
  destruct (main_trace rng args df Hfn Hwf)
    as [tc' [m' [rest [Htc' [_ [Hm' [Hqr [Htr _]]]]]]]].
  rewrite Htc in Htc'. injection Htc' as <-.
  rewrite Hm in Hm'. injection Hm' as <-.
  exists m, s. split; [exact Hm|]. split; [exact Hs|]. split.
  - unfold cell. rewrite Hqr, nth_error_map.
    rewrite (nth_run_files rng args df tc i Hlen Hi), Hstrip. reflexivity.
  - rewrite Htr. cbn [saved_images].
    rewrite saved_images_app, saved_images_rows.
    rewrite nth_error_app1
      by (rewrite length_map; now rewrite length_run_tokens).
    rewrite nth_error_map.
    assert (Hl : length (run_tokens rng args tc) = nrows df)
      by (unfold run_tokens; now rewrite length_tokens).
    rewrite <- Hl at 1.
    rewrite (nth_error_combine_seq (run_tokens rng args tc) 0 i) by lia.
    simpl. now rewrite Hstrip.
Qed.

Lemma payload_carries_manifest_token_witness :
  exists m s,
    manifest (main sample_rng sample_args sample_df) = Some m
    /\ cell m "token" 0 = Some (VStr s)
    /\ cell m "qr_file" 0
       = Some (VStr (file_name sample_args 0
                       (String.length (str_nat (nrows sample_df)))
                       (strip s)))
    /\ nth_error
         (saved_images (trace (main sample_rng sample_args sample_df))) 0
       = Some (factory_of (format sample_args),
               build_url (webapp_url sample_args) (strip s),
               PurePath.joinpath (PurePath.parse (out sample_args))
                 (file_name sample_args 0
                    (String.length (str_nat (nrows sample_df)))
                    (strip s))).
Proof.
  apply (payload_carries_manifest_token sample_rng sample_args sample_df 0);
    [reflexivity | apply well_formedb_ok; reflexivity | simpl; lia].
Defined.

(** X4. After a run every row has a token in the manifest: the cell is
    never the missing value, and unless the caller asked for tokens of
    length zero or less it is not blank. *)
Theorem manifest_tokens_filled (rng : nat -> nat) (args : Args)
  (df : DataFrame) (i : nat) :
  has_column "full_name" df = true -> well_formed df -> i < nrows df ->
  exists m s,
    manifest (main rng args df) = Some m
    /\ cell m "token" i = Some (VStr s)
    /\ ((0 < token_len args)%Z -> strip s <> EmptyString).
Proof.
  intros Hfn Hwf Hi.
  destruct (manifest_token_stripped rng args df Hfn Hwf)
    as [m [tc [Hm [_ [_ Hrow]]]]].
  destruct (Hrow i Hi) as [s [Hs [_ Hne]]].
  exists m, s. now repeat split.
Qed.

Lemma manifest_tokens_filled_witness :
  exists m s,
    manifest (main sample_rng sample_args sample_df) = Some m
    /\ cell m "token" 1 = Some (VStr s)
    /\ ((0 < token_len sample_args)%Z -> strip s <> EmptyString).
Proof.
  apply (manifest_tokens_filled sample_rng sample_args sample_df 1);
    [reflexivity | apply well_formedb_ok; reflexivity | simpl; lia].
Defined.

(** X5. The order of a run: the directory is made first, then come the
    images, then the one manifest; nothing is saved as an image after the
    manifest is written. *)
Theorem directory_images_manifest (rng : nat -> nat) (args : Args)
  (df : DataFrame) :
  has_column "full_name" df = true -> well_formed df ->
  exists rows m rest,
    trace (main rng args df)
    = (Mkdir (PurePath.parse (out args))
       :: rows ++ ToCsv (output_csv args) m :: rest)%list
    /\ length (saved_images rows) = nrows df
    /\ manifest_of rows = None
    /\ saved_images rest = []
    /\ manifest_of rest = None.
Proof.
  intros Hfn Hwf.
  destruct (main_trace rng args df Hfn Hwf)
    as [tc [m [rest [_ [Hlen [_ [_ [Htr [Hrest Hnone]]]]]]]]].
  eexists. exists m. eexists. split; [exact Htr|].
  split; [|split; [apply manifest_of_rows | now split]].
  rewrite saved_images_rows, length_map. now apply length_run_tokens.
Qed.

Lemma directory_images_manifest_witness :
  exists rows m rest,
    trace (main sample_rng sample_args sample_df)
    = (Mkdir (PurePath.parse (out sample_args))
       :: rows ++ ToCsv (output_csv sample_args) m :: rest)%list
    /\ length (saved_images rows) = nrows sample_df
    /\ manifest_of rows = None
    /\ saved_images rest = []
    /\ manifest_of rest = None.
Proof.
  apply (directory_images_manifest sample_rng sample_args sample_df);
    [reflexivity | apply well_formedb_ok; reflexivity].
Defined.

(** ** Columns *)

Section ColumnFacts.

Lemma well_formed_set_col (df : DataFrame) (name : string)
  (col : list value) :
  well_formed df -> length col = nrows df ->
  well_formed (setitem df name col).
Proof.
  unfold well_formed, setitem. simpl. intros Hwf Hl.
  induction (columns df) as [|[n c] r IH]; simpl.
  - constructor; [exact Hl | constructor].
  - inversion Hwf as [|? ? Hc Hr]; subst.
    destruct (String.eqb n name); constructor; auto.
Qed.

Lemma well_formed_at_set (df : DataFrame) (i : nat) (name : string)
  (v : value) :
  well_formed df -> well_formed (at_set df i name v).
Proof.
  unfold well_formed, at_set. simpl. intros Hwf.
  induction (columns df) as [|[n c] r IH]; simpl; [constructor|].
  inversion Hwf as [|? ? Hc Hr]; subst.
  destruct (String.eqb n name); constructor; auto.
  simpl. now rewrite length_list_set.
Qed.

Lemma well_formed_ensure (df : DataFrame) :
  well_formed df -> well_formed (ensure_token_column df).
Proof.
  intros H. unfold ensure_token_column, setitem_scalar.
  destruct (negb _); [|exact H].
  apply well_formed_set_col; [exact H | apply repeat_length].
Qed.

Lemma ensure_has_token (df : DataFrame) :
  has_column "token" (ensure_token_column df) = true.
Proof.
  unfold ensure_token_column.
  destruct (has_column "token" df) eqn:E; simpl; [exact E|].
  apply has_column_get. eexists. simpl. apply get_set_col_same.
Qed.

Lemma names_ensure (df : DataFrame) :
  map fst (columns (ensure_token_column df))
  = (map fst (columns df)
     ++ (if has_column "token" df then [] else ["token"]))%list.
Proof.
  unfold ensure_token_column. rewrite (has_column_names "token" df).
  destruct (existsb _ _) eqn:E; simpl.
  - now rewrite app_nil_r.
  - now rewrite names_set_col, E.
Qed.

Variable rng : nat -> nat.
Variable args : Args.

Lemma well_formed_run_rows (out_dir : Path) (digits : nat)
  (vs : list value) : forall a st,
  well_formed (ls_df st) ->
  well_formed (ls_df (run_rows rng args out_dir digits a vs st)).
Proof.
  induction vs as [|v r IH]; intros a st H; [exact H|].
  unfold run_rows. simpl fold_left.
  fold (run_rows rng args out_dir digits (S a) r
          (body rng args out_dir digits a v st)).
  apply IH. rewrite body_eq. cbn [ls_df].
  destruct (needs_token _); [now apply well_formed_at_set | exact H].
Qed.

(** The manifest of a run, as the table the loop leaves with the file
    names set. *)
Lemma main_manifest_eq df :
  has_column "full_name" df = true -> well_formed df ->
  exists tc,
    get_col "token" (columns (ensure_token_column df)) = Some tc
    /\ length tc = nrows df
    /\ manifest (main rng args df)
       = Some (setitem
                 (ls_df (run_rows rng args (out_path args) (width df) 0 tc
                           (start args df)))
                 "qr_file" (map VStr (run_files rng args df tc))).
Proof.
  intros Hfn Hwf.
  destruct (main_eq rng args df Hfn Hwf) as [tc [Htc [Hlen Hmain]]].
  exists tc. split; [exact Htc|]. split; [exact Hlen|].
  rewrite Hmain, finish_manifest.
  - rewrite run_rows_files. simpl. unfold run_files, run_tokens.
    now rewrite Hlen.
  - rewrite run_rows_trace. simpl. apply manifest_of_rows.
Qed.

End ColumnFacts.

(** X6. The manifest has the columns of the input in their order, then
    [token] if the input had none, then [qr_file] if the input had none
    (an input column of that name is overwritten where it stands); every
    column other than these two is in the manifest as it was read. *)
Theorem columns_passed_through (rng : nat -> nat) (args : Args)
  (df : DataFrame) :
  has_column "full_name" df = true -> well_formed df ->
  exists m,
    manifest (main rng args df) = Some m
    /\ map fst (columns m)
       = (map fst (columns df)
          ++ (if has_column "token" df then [] else ["token"])
          ++ (if has_column "qr_file" df then [] else ["qr_file"]))%list
    /\ forall other, other <> "token" -> other <> "qr_file" ->
         get_col other (columns m) = get_col other (columns df).
Proof.
  intros Hfn Hwf.
  destruct (main_manifest_eq rng args df Hfn Hwf) as [tc [Htc [Hlen Hm]]].
  destruct (run_rows_shape rng args (out_path args) (width df) tc 0
              (start args df)) as [_ [Hnames Hother]].
  eexists. split; [exact Hm|]. split.
  - cbn [setitem columns]. rewrite names_set_col, Hnames.
    cbn [start ls_df]. rewrite names_ensure.
    assert (Hq : existsb (String.eqb "qr_file")
                   (map fst (columns df)
                    ++ (if has_column "token" df then [] else ["token"]))
                 = has_column "qr_file" df).
    { rewrite existsb_app, <- has_column_names.
      destruct (has_column "token" df); cbn [existsb];
        [apply orb_false_r|].
      replace (String.eqb "qr_file" "token") with false by reflexivity.
      now rewrite !orb_false_r. }
    rewrite Hq. destruct (has_column "qr_file" df).
    + now rewrite app_nil_r.
    + now rewrite <- app_assoc.
  - intros other H1 H2. simpl. rewrite get_set_col_other by exact H2.
    rewrite (Hother other H1). simpl. now apply ensure_other.
Qed.

Lemma columns_passed_through_witness :
  exists m,
    manifest (main sample_rng sample_args sample_df) = Some m
    /\ map fst (columns m)
       = (map fst (columns sample_df)
          ++ (if has_column "token" sample_df then [] else ["token"])
          ++ (if has_column "qr_file" sample_df then [] else ["qr_file"]))%list
    /\ forall other, other <> "token" -> other <> "qr_file" ->
         get_col other (columns m) = get_col other (columns sample_df).
Proof.
  apply (columns_passed_through sample_rng sample_args sample_df);
    [reflexivity | apply well_formedb_ok; reflexivity].
Defined.

(** X7. The manifest is a table again: it has the rows of the input and
    every column of it, the new ones included, has one cell per row. *)
Theorem manifest_well_formed (rng : nat -> nat) (args : Args)
  (df : DataFrame) :
  has_column "full_name" df = true -> well_formed df ->
  exists m,
    manifest (main rng args df) = Some m
    /\ nrows m = nrows df
    /\ well_formed m.
Proof.
  intros Hfn Hwf.
  destruct (main_manifest_eq rng args df Hfn Hwf) as [tc [Htc [Hlen Hm]]].
  destruct (run_rows_shape rng args (out_path args) (width df) tc 0
              (start args df)) as [Hn _].
  simpl in Hn. rewrite ensure_nrows in Hn.
  eexists. split; [exact Hm|]. split; [exact Hn|].
  apply well_formed_set_col.
  - apply well_formed_run_rows. simpl. now apply well_formed_ensure.
  - rewrite Hn. unfold run_files. rewrite !length_map.
    now apply length_run_tokens.
Qed.

Lemma manifest_well_formed_witness :
  exists m,
    manifest (main sample_rng sample_args sample_df) = Some m
    /\ nrows m = nrows sample_df
    /\ well_formed m.
Proof.
  apply (manifest_well_formed sample_rng sample_args sample_df);
    [reflexivity | apply well_formedb_ok; reflexivity].
Defined.

(** ** What the tokens depend on *)

Section TokenDependence.

Variable rng : nat -> nat.

Lemma tokens_ext (a1 a2 : Args) (vs : list value) :
  token_len a1 = token_len a2 ->
  forall d, tokens rng a1 vs d = tokens rng a2 vs d.
Proof.
  intros H. induction vs as [|v r IH]; intros d; [reflexivity|].
  simpl. unfold token_at, draws_after. rewrite H, IH. reflexivity.
Qed.

Lemma run_rows_has_token (args : Args) (out_dir : Path) (digits : nat)
  (vs : list value) (a : nat) (df : DataFrame) :
  exists c,
    get_col "token"
      (columns (ls_df (run_rows rng args out_dir digits a vs
                         (start args df)))) = Some c.
Proof.
  apply has_column_get. rewrite has_column_names.
  destruct (run_rows_shape rng args out_dir digits vs a (start args df))
    as [_ [Hnames _]].
  rewrite Hnames. cbn [start ls_df]. rewrite <- has_column_names.
  apply ensure_has_token.
Qed.

(** The offsets in the random source: a row that needs a token takes its
    draws right after those of the needing rows before it. *)
Lemma nth_tokens_offset (args : Args) (vs : list value) : forall d j,
  j < length vs ->
  nth j (tokens rng args vs d) EmptyString
  = token_at rng args (nth j vs NaN)
      (d + needing_before vs j * Z.to_nat (token_len args)).
Proof.
  induction vs as [|v r IH]; intros d j Hj; [simpl in Hj; lia|].
  destruct j as [|j].
  - simpl. now rewrite Nat.add_0_r.
  - simpl in Hj. cbn [tokens nth]. rewrite IH by lia. f_equal.
    unfold needing_before, draws_after. cbn [firstn filter].
    unfold needs_new at 2.
    destruct (needs_token (strip (str_value v))); simpl; lia.
Qed.

End TokenDependence.

(** X8. The tokens of the manifest depend on the table, the random
    source and the token length alone: two runs that differ in base URL,
    directory, format, archive flag or manifest path write the same token
    column. *)
Theorem tokens_independent_of_output_options (rng : nat -> nat)
  (a1 a2 : Args) (df : DataFrame) :
  has_column "full_name" df = true -> well_formed df ->
  token_len a1 = token_len a2 ->
  exists m1 m2 col,
    manifest (main rng a1 df) = Some m1
    /\ manifest (main rng a2 df) = Some m2
    /\ get_col "token" (columns m1) = Some col
    /\ get_col "token" (columns m2) = Some col.
Proof.
  intros Hfn Hwf Hlen.
  destruct (main_manifest_eq rng a1 df Hfn Hwf) as [tc [Htc [Hl Hm1]]].
  destruct (main_manifest_eq rng a2 df Hfn Hwf) as [tc' [Htc' [_ Hm2]]].
  rewrite Htc in Htc'. injection Htc' as <-.
  destruct (run_rows_has_token rng a1 (out_path a1) (width df) tc 0 df)
    as [c1 Hc1].
  destruct (run_rows_has_token rng a2 (out_path a2) (width df) tc 0 df)
    as [c2 Hc2].
  assert (Heq : c1 = c2).
  { apply nth_error_ext. intros i.
    pose proof (run_rows_cell rng a1 (out_path a1) (width df) tc 0
                  (start a1 df) i) as H1.
    pose proof (run_rows_cell rng a2 (out_path a2) (width df) tc 0
                  (start a2 df) i) as H2.
    unfold cell in H1 at 1. unfold cell in H2 at 1.
    rewrite Hc1 in H1. rewrite Hc2 in H2. rewrite H1, H2.
    simpl. now rewrite (tokens_ext rng a1 a2 tc Hlen). }
  subst c2.
  eexists. eexists. exists c1. split; [exact Hm1|]. split; [exact Hm2|].
  split; simpl; rewrite get_set_col_other by discriminate; assumption.
Qed.

Lemma tokens_independent_of_output_options_witness :
  exists m1 m2 col,
    manifest (main sample_rng sample_args sample_df) = Some m1
    /\ manifest (main sample_rng dot_dir_args sample_df) = Some m2
    /\ get_col "token" (columns m1) = Some col
    /\ get_col "token" (columns m2) = Some col.
Proof.
  apply (tokens_independent_of_output_options sample_rng sample_args
           dot_dir_args sample_df);
    [reflexivity | apply well_formedb_ok; reflexivity | reflexivity].
Defined.

(** X9. Rows with a given token use up nothing of the random source: the
    new token of a row is made of the draws that follow those of the
    needing rows before it, [token_len] draws for each. *)
Theorem generated_token_draws (rng : nat -> nat) (args : Args)
  (df : DataFrame) (i : nat) (v : value) :
  has_column "full_name" df = true -> well_formed df ->
  cell (ensure_token_column df) "token" i = Some v ->
  needs_new v = true ->
  exists m tc,
    manifest (main rng args df) = Some m
    /\ get_col "token" (columns (ensure_token_column df)) = Some tc
    /\ cell m "token" i
       = Some (VStr (fst (random_token rng (token_len args)
                            (needing_before tc i
                             * Z.to_nat (token_len args))))).
Proof.
  intros Hfn Hwf Hv Hneed.
  destruct (main_manifest rng args df Hfn Hwf)
    as [m [tc [Hm [Htc [Hlen [_ [_ [Htok _]]]]]]]].
  unfold cell in Hv. rewrite Htc in Hv.
  exists m, tc. split; [exact Hm|]. split; [exact Htc|].
  rewrite (Htok i v Hv). unfold needs_new in Hneed. rewrite Hneed.
  assert (Hi : i < length tc) by (apply nth_error_Some; congruence).
  unfold run_tokens. rewrite nth_tokens_offset by exact Hi.
  rewrite (nth_error_nth _ _ NaN Hv). unfold token_at. now rewrite Hneed.
Qed.

Lemma generated_token_draws_witness :
  exists m tc,
    manifest (main sample_rng sample_args sample_df) = Some m
    /\ get_col "token" (columns (ensure_token_column sample_df)) = Some tc
    /\ cell m "token" 2
       = Some (VStr (fst (random_token sample_rng (token_len sample_args)
                            (needing_before tc 2
                             * Z.to_nat (token_len sample_args))))).
Proof.
  apply (generated_token_draws sample_rng sample_args sample_df 2
           (VStr " NaN")); reflexivity || (apply well_formedb_ok; reflexivity).
Defined.

(** ** The token lookup *)

Section Outcome.

Variable rng : nat -> nat.
Variable args : Args.

Lemma loop_total (out_dir : Path) (digits : nat)
  (rows : list (nat * Series)) : forall st,
  (forall r, In r rows -> series_get "token" (snd r) <> None) ->
  snd (loop rng args out_dir digits rows st) = None.
Proof.
  induction rows as [|[idx row] rows IH]; intros st H; [reflexivity|].
  simpl. destruct (series_get "token" row) as [v|] eqn:E.
  - apply IH. intros r Hr. apply H. now right.
  - elim (H (idx, row)); [now left | exact E].
Qed.

Lemma iterrows_have_token (df : DataFrame) :
  has_column "token" df = true ->
  forall r, In r (iterrows df) -> series_get "token" (snd r) <> None.
Proof.
  intros H r Hr. unfold iterrows in Hr. apply in_map_iff in Hr.
  destruct Hr as [i [<- _]]. simpl. rewrite series_get_row_at.
  apply has_column_get in H. destruct H as [c ->]. discriminate.
Qed.

End Outcome.

(** X10. Reading a row's token never fails: whatever the table, with or
    without [full_name] or [token], with columns of equal length or not,
    no run ends in the [KeyError] of [row["token"]]. *)
Theorem token_lookup_never_fails (rng : nat -> nat) (args : Args)
  (df : DataFrame) :
  result (main rng args df) <> Raised KeyError.
Proof.
  unfold main. destruct (negb (has_column "full_name" df)); [discriminate|].
  remember (PurePath.parse (out args)) as od eqn:Eod.
  pose proof (loop_total rng args od
                (String.length (str_nat (nrows (ensure_token_column df))))
                (iterrows (ensure_token_column df))
                {| ls_df := ensure_token_column df; ls_draws := 0;
                   ls_files := []; ls_trace := [Mkdir od] |}
                (iterrows_have_token _ (ensure_has_token df))) as Hloop.
  destruct (loop rng args od _ _ _) as [st [e|]]; [discriminate|].
  unfold finish, bundle. destruct (zip args); [|discriminate].
  destruct (PurePath.with_suffix od ".zip") as [zp|]; [|discriminate].
  destruct (PurePath.eqb zp od); discriminate.
Qed.



(** ** More on the URL and the resolver *)

(** X12. Question marks at the end of the base make no difference to the
    URL: one more of them gives the same URL. *)
Theorem url_ignores_trailing_question_mark (base token : string) :
  build_url (base ++ "?") token = build_url base token.
Proof.
  unfold build_url, rstrip. now rewrite rstrip_by_app_last.
Qed.

(** X13. A base that does not end in a question mark goes into the URL
    whole. *)
Theorem url_keeps_plain_base (base token : string) :
  (forall c, last_char base = Some c -> c <> "?"%char) ->
  build_url base token = base ++ "?token=" ++ token.
Proof.
  intros H. unfold build_url, rstrip. rewrite rstrip_by_id; [reflexivity|].
  intros c Hc. specialize (H c Hc). unfold mem_char. simpl.
  rewrite orb_false_r. now apply Ascii.eqb_neq.
Qed.

Lemma url_keeps_plain_base_witness :
  build_url "https://example.com/x" "ABC123"
  = "https://example.com/x" ++ "?token=" ++ "ABC123".
Proof.
  apply (url_keeps_plain_base "https://example.com/x" "ABC123").
  intros c H. vm_compute in H. injection H as <-. discriminate.
Defined.

(** X14. Resolving is stable: a given token, once stripped, resolves to
    itself, so the token of a file name fed back as input is kept. *)
Theorem resolve_stripped_token (rng : nat -> nat) (args : Args) (i : nat)
  (s : string) (table : DataFrame) (draws : nat) :
  present s ->
  present (strip s)
  /\ resolve rng args i (VStr (strip s)) table draws
     = (strip s, table, draws).
Proof.
  intros Hp.
  assert (Hp' : present (strip s))
    by (unfold present; now rewrite strip_idempotent).
  split; [exact Hp'|]. unfold resolve. simpl str_value.
  now rewrite (present_needs _ Hp'), strip_idempotent.
Qed.

Lemma resolve_stripped_token_witness :
  present (strip " ABC123 ")
  /\ resolve sample_rng sample_args 0 (VStr (strip " ABC123 "))
       sample_df 0
     = (strip " ABC123 ", sample_df, 0).
Proof.
  apply (resolve_stripped_token sample_rng sample_args 0 " ABC123 "
           sample_df 0).
  split; vm_compute; discriminate.
Defined.

(** ** The archive, once more *)

Lemma no_archive_unless_requested_witness :
  existsb is_zip (trace (main sample_rng negative_len_args sample_df))
  = false.
Proof.
  apply (no_archive_unless_requested sample_rng negative_len_args sample_df).
  reflexivity.
Defined.

Lemma archive_event_shape_witness :
  zip sample_args = true
  /\ ZIP_DEFLATED = ZIP_DEFLATED
  /\ PurePath.with_suffix (PurePath.parse (out sample_args)) ".zip"
     = Some {| PurePath.root := EmptyString;
               PurePath.parts := ["qr_out.zip"] |}
  /\ PurePath.eqb
       {| PurePath.root := EmptyString; PurePath.parts := ["qr_out.zip"] |}
       (PurePath.parse (out sample_args)) = false
  /\ exists before m files,
       trace (main sample_rng sample_args sample_df)
       = (before
          ++ [ZipFile {| PurePath.root := EmptyString;
                         PurePath.parts := ["qr_out.zip"] |} ZIP_DEFLATED
                (map (fun name =>
                        (PurePath.joinpath
                           (PurePath.parse (out sample_args)) name, name))
                     ["1_ABC123.png"; "2_DKRY5CJQ.png"; "3_X4BIPW3A.png"]);
              PrintLine
                (MsgCreated {| PurePath.root := EmptyString;
                               PurePath.parts := ["qr_out.zip"] |})])%list
       /\ existsb is_zip before = false
       /\ manifest_of before = Some m
       /\ get_col "qr_file" (columns m) = Some (map VStr files)
       /\ map (fun name =>
                 (PurePath.joinpath (PurePath.parse (out sample_args)) name,
                  name))
              ["1_ABC123.png"; "2_DKRY5CJQ.png"; "3_X4BIPW3A.png"]
          = map (fun name =>
                   (PurePath.joinpath (PurePath.parse (out sample_args)) name,
                    name)) files.
Proof.
  apply (archive_event_shape sample_rng sample_args sample_df
           {| PurePath.root := EmptyString;
              PurePath.parts := ["qr_out.zip"] |} ZIP_DEFLATED
           (map (fun name =>
                   (PurePath.joinpath (PurePath.parse (out sample_args)) name,
                    name))
                ["1_ABC123.png"; "2_DKRY5CJQ.png"; "3_X4BIPW3A.png"]));
    [reflexivity | apply well_formedb_ok; reflexivity |].
  vm_compute. do 9 right. left. reflexivity.
Defined.

(** ** Where the images go *)

Section ImagePaths.

Lemma mem_char_app (s t : string) (c : ascii) :
  mem_char (s ++ t) c = mem_char s c || mem_char t c.
Proof.
  unfold mem_char. induction s as [|d s IH]; [reflexivity|].
  simpl. now rewrite IH, orb_assoc.
Qed.

Lemma split_no_sep (sep : ascii) (s : string) :
  contains sep s = false -> PyStr.split sep s = [s].
Proof.
  unfold contains, mem_char. induction s as [|c s IH]; [reflexivity|].
  simpl. intros H. apply orb_false_iff in H. destruct H as [Hc Hs].
  rewrite Ascii.eqb_sym, Hc, (IH Hs). reflexivity.
Qed.

(** A text without a slash, other than the empty one and the dot, is a
    path of one component. *)
Lemma parse_plain (s : string) :
  contains "/" s = false -> 2 <= String.length s ->
  PurePath.parse s
  = {| PurePath.root := EmptyString; PurePath.parts := [s] |}.
Proof.
  intros Hc Hl. unfold PurePath.parse, PurePath.splitroot.
  destruct s as [|c s]; [simpl in Hl; lia|].
  assert (Hsep : PurePath.is_sep c = false).
  { unfold contains, mem_char in Hc. simpl in Hc.
    apply orb_false_iff in Hc. destruct Hc as [Hc _].
    unfold PurePath.is_sep. now rewrite Ascii.eqb_sym. }
  rewrite Hsep, (split_no_sep _ _ Hc). simpl filter.
  assert (Hk : PurePath.kept (String c s) = true).
  { unfold PurePath.kept. simpl.
    destruct s as [|d s]; [simpl in Hl; lia|].
    destruct (Ascii.eqb c "."); reflexivity. }
  now rewrite Hk.
Qed.

Lemma joinpath_plain (p : Path) (s : string) :
  contains "/" s = false -> 2 <= String.length s ->
  PurePath.joinpath p s
  = {| PurePath.root := PurePath.root p;
       PurePath.parts := PurePath.parts p ++ [s] |}.
Proof.
  intros Hc Hl. unfold PurePath.joinpath.
  now rewrite (parse_plain s Hc Hl).
Qed.

Lemma contains_zeros (k : nat) : contains "/" (zeros k) = false.
Proof. induction k as [|k IH]; [reflexivity | exact IH]. Qed.

Lemma contains_digit (d : nat) :
  d < 10 -> Ascii.eqb "/" (digit d) = false.
Proof.
  intros H. do 10 (destruct d as [|d]; [reflexivity|]). lia.
Qed.

Lemma contains_dec (f n : nat) : contains "/" (dec f n) = false.
Proof.
  revert n. induction f as [|f IH]; intros n; [reflexivity|].
  cbn [dec]. destruct (n <? 10) eqn:E.
  - apply Nat.ltb_lt in E. unfold contains, mem_char.
    cbn [list_ascii_of_string existsb]. now rewrite contains_digit.
  - unfold contains in *. rewrite mem_char_app, IH.
    unfold mem_char. cbn [list_ascii_of_string existsb orb].
    rewrite contains_digit; [reflexivity|].
    apply Nat.mod_upper_bound. lia.
Qed.

Variable args : Args.

Lemma contains_file_name (i digits : nat) (tok : string) :
  contains "/" tok = false ->
  contains "/" (file_name args i digits tok) = false.
Proof.
  intros H. unfold file_name. rewrite zfill_str_nat.
  unfold contains in *. rewrite !mem_char_app, H.
  fold (contains "/" (zeros (digits - String.length (str_nat (i + 1))))).
  rewrite contains_zeros.
  fold (contains "/" (str_nat (i + 1))). unfold str_nat.
  rewrite contains_dec. now destruct (format args).
Qed.

Lemma length_file_name (i digits : nat) (tok : string) :
  2 <= String.length (file_name args i digits tok).
Proof.
  unfold file_name. rewrite !length_app. simpl. lia.
Qed.

Lemma upper_or_digit_no_slash (s : string) :
  all_chars upper_or_digit s = true -> contains "/" s = false.
Proof.
  unfold contains, mem_char. induction s as [|c s IH]; [reflexivity|].
  cbn [all_chars list_ascii_of_string existsb]. intros H.
  apply andb_true_iff in H. destruct H as [Hc Hs].
  rewrite (IH Hs), orb_false_r.
  destruct (Ascii.eqb_spec "/"%char c) as [E|E]; [|reflexivity].
  rewrite <- E in Hc. vm_compute in Hc. discriminate.
Qed.

End ImagePaths.

(** X17. A row whose token has no slash in it has its image saved
    directly in the output directory, under the very name the manifest
    records in [qr_file]; new tokens never have a slash. *)
Theorem image_saved_in_directory (rng : nat -> nat) (args : Args)
  (df : DataFrame) (i : nat) (v : value) :
  has_column "full_name" df = true -> well_formed df ->
  cell (ensure_token_column df) "token" i = Some v ->
  contains "/" (strip (str_value v)) = false ->
  exists m fname url,
    manifest (main rng args df) = Some m
    /\ cell m "qr_file" i = Some (VStr fname)
    /\ In (SaveImage (factory_of (format args)) url
             {| PurePath.root := PurePath.root (PurePath.parse (out args));
                PurePath.parts :=
                  PurePath.parts (PurePath.parse (out args)) ++ [fname] |})
          (trace (main rng args df)).
Proof.
  intros Hfn Hwf Hv Hslash.
  destruct (main_row rng args df i v Hfn Hwf Hv)
    as [m [tok [d [Hm [_ [Htok [_ [Hcq Himg]]]]]]]].
  assert (Hs : contains "/" tok = false).
  { subst tok. unfold token_at.
    destruct (needs_token (strip (str_value v))); [|exact Hslash].
    apply upper_or_digit_no_slash, random_token_chars. }
  exists m, (file_name args i (width df) tok),
    (build_url (webapp_url args) tok).
  split; [exact Hm|]. split; [exact Hcq|].
  rewrite make_qr_factory, joinpath_plain in Himg;
    [exact Himg | now apply contains_file_name | apply length_file_name].
Qed.

Lemma image_saved_in_directory_witness :
  exists m fname url,
    manifest (main sample_rng sample_args sample_df) = Some m
    /\ cell m "qr_file" 0 = Some (VStr fname)
    /\ In (SaveImage (factory_of (format sample_args)) url
             {| PurePath.root :=
                  PurePath.root (PurePath.parse (out sample_args));
                PurePath.parts :=
                  PurePath.parts (PurePath.parse (out sample_args))
                  ++ [fname] |})
          (trace (main sample_rng sample_args sample_df)).
Proof.
  apply (image_saved_in_directory sample_rng sample_args sample_df 0
           (VStr " ABC123 "));
    [reflexivity | apply well_formedb_ok; reflexivity | reflexivity
    | reflexivity].
Defined.

(** ** Ordinals in the file names *)

Section Ordinals.

Lemma ascii_compare_ord (a b : ascii) :
  Ascii.compare a b = Nat.compare (ord a) (ord b).
Proof. unfold Ascii.compare, ord, nat_of_ascii. apply N2Nat.inj_compare. Qed.

Lemma ord_inj (a b : ascii) : ord a = ord b -> a = b.
Proof.
  intros H. rewrite <- (ascii_nat_embedding a), <- (ascii_nat_embedding b).
  unfold ord in H. now rewrite H.
Qed.

Lemma int_acc_linear (s : string) : forall acc,
  int_acc acc s = acc * 10 ^ String.length s + int_acc 0 s.
Proof.
  induction s as [|c s IH]; intros acc; [simpl; lia|].
  cbn [int_acc String.length]. rewrite (IH (10 * acc + digit_value c)).
  rewrite (IH (10 * 0 + digit_value c)). rewrite Nat.pow_succ_r'. nia.
Qed.

Lemma int_of_str_cons (c : ascii) (s : string) :
  int_of_str (String c s)
  = digit_value c * 10 ^ String.length s + int_of_str s.
Proof.
  unfold int_of_str. cbn [int_acc].
  rewrite (int_acc_linear s (10 * 0 + digit_value c)).
  now rewrite Nat.mul_0_r.
Qed.

Lemma int_of_str_bound (s : string) :
  all_chars is_digit s = true -> int_of_str s < 10 ^ String.length s.
Proof.
  induction s as [|c s IH]; intros H; [unfold int_of_str; simpl; lia|].
  cbn [all_chars] in H. apply andb_true_iff in H. destruct H as [Hc Hs].
  rewrite int_of_str_cons. specialize (IH Hs).
  unfold is_digit in Hc. apply andb_true_iff in Hc. destruct Hc as [H1 H2].
  apply Nat.leb_le in H1, H2.
  cbn [String.length]. rewrite Nat.pow_succ_r'.
  unfold digit_value. nia.
Qed.

Lemma all_chars_app (p : ascii -> bool) (s t : string) :
  all_chars p (s ++ t) = all_chars p s && all_chars p t.
Proof.
  induction s as [|c s IH]; [reflexivity|].
  simpl. now rewrite IH, andb_assoc.
Qed.

Lemma is_digit_digit (d : nat) : d < 10 -> is_digit (digit d) = true.
Proof.
  intros H. do 10 (destruct d as [|d]; [reflexivity|]). lia.
Qed.

Lemma digits_zeros (k : nat) : all_chars is_digit (zeros k) = true.
Proof. induction k as [|k IH]; [reflexivity | exact IH]. Qed.

Lemma digits_dec (f n : nat) : all_chars is_digit (dec f n) = true.
Proof.
  revert n. induction f as [|f IH]; intros n; [reflexivity|].
  cbn [dec]. destruct (n <? 10) eqn:E.
  - apply Nat.ltb_lt in E. cbn [all_chars].
    now rewrite is_digit_digit.
  - rewrite all_chars_app, IH. cbn [all_chars andb].
    rewrite is_digit_digit; [reflexivity|].
    apply Nat.mod_upper_bound. lia.
Qed.

Lemma digits_zfill (n width : nat) :
  all_chars is_digit (zfill (str_nat n) width) = true.
Proof.
  rewrite zfill_str_nat, all_chars_app, digits_zeros. apply digits_dec.
Qed.

(** Numerals of one length compare as texts the way their numbers do,
    whatever follows them. *)
Lemma numerals_compare (s : string) : forall t x y,
  String.length s = String.length t ->
  all_chars is_digit s = true -> all_chars is_digit t = true ->
  int_of_str s < int_of_str t ->
  String.compare (s ++ x) (t ++ y) = Lt.
Proof.
  induction s as [|c s IH]; intros [|d t] x y Hl Hs Ht Hlt;
    try discriminate.
  - unfold int_of_str in Hlt. simpl in Hlt. lia.
  - cbn [String.length] in Hl. injection Hl as Hl.
    cbn [all_chars] in Hs, Ht.
    apply andb_true_iff in Hs, Ht.
    destruct Hs as [Hc Hs], Ht as [Hd Ht].
    pose proof (int_of_str_bound s Hs) as Bs.
    pose proof (int_of_str_bound t Ht) as Bt.
    rewrite !int_of_str_cons in Hlt. rewrite Hl in Hlt, Bs.
    unfold is_digit in Hc, Hd. apply andb_true_iff in Hc, Hd.
    destruct Hc as [Hc1 Hc2], Hd as [Hd1 Hd2].
    apply Nat.leb_le in Hc1, Hc2, Hd1, Hd2.
    unfold digit_value in Hlt.
    cbn [append String.compare]. rewrite ascii_compare_ord.
    destruct (Nat.compare_spec (ord c) (ord d)) as [E|E|E].
    + apply IH; try assumption. rewrite E in Hlt.
      apply Nat.add_lt_mono_l in Hlt. exact Hlt.
    + reflexivity.
    + exfalso. nia.
Qed.

End Ordinals.

(** X18. The position of a row can be read back from its file name: the
    first characters of the [qr_file] entry, as many as the row count has
    digits, are a decimal numeral of the row's 1-based position. *)
Theorem ordinal_read_back (rng : nat -> nat) (args : Args) (df : DataFrame)
  (i : nat) :
  has_column "full_name" df = true -> well_formed df -> i < nrows df ->
  exists m fname,
    manifest (main rng args df) = Some m
    /\ cell m "qr_file" i = Some (VStr fname)
    /\ all_chars is_digit
         (prefix_of (String.length (str_nat (nrows df))) fname) = true
    /\ int_of_str (prefix_of (String.length (str_nat (nrows df))) fname)
       = i + 1.
Proof.
  intros Hfn Hwf Hi.
  destruct (main_manifest rng args df Hfn Hwf)
    as [m [tc [Hm [Htc [Hlen [_ [Hqr _]]]]]]].
  exists m, (file_name args i (width df)
               (nth i (run_tokens rng args tc) EmptyString)).
  split; [exact Hm|]. split.
  { unfold cell. rewrite Hqr, nth_error_map.
    now rewrite (nth_run_files rng args df tc i Hlen Hi). }
  unfold file_name.
  rewrite <- (zfill_str_nat_length (i + 1) (nrows df)) by lia.
  unfold width. rewrite prefix_of_app.
  split; [apply digits_zfill | apply int_of_zfill].
Qed.

Lemma ordinal_read_back_witness :
  exists m fname,
    manifest (main sample_rng sample_args sample_df) = Some m
    /\ cell m "qr_file" 2 = Some (VStr fname)
    /\ all_chars is_digit
         (prefix_of (String.length (str_nat (nrows sample_df))) fname)
       = true
    /\ int_of_str
         (prefix_of (String.length (str_nat (nrows sample_df))) fname)
       = 2 + 1.
Proof.
  apply (ordinal_read_back sample_rng sample_args sample_df 2);
    [reflexivity | apply well_formedb_ok; reflexivity | simpl; lia].
Defined.

(** X19. Sorted by name the images are in table order: the file name of
    an earlier row comes before that of a later row as a text, whatever
    the tokens are. *)
Theorem file_names_sorted (rng : nat -> nat) (args : Args) (df : DataFrame)
  (i j : nat) :
  has_column "full_name" df = true -> well_formed df ->
  i < j -> j < nrows df ->
  exists m fi fj,
    manifest (main rng args df) = Some m
    /\ cell m "qr_file" i = Some (VStr fi)
    /\ cell m "qr_file" j = Some (VStr fj)
    /\ String.compare fi fj = Lt.
Proof.
  intros Hfn Hwf Hij Hj.
  destruct (main_manifest rng args df Hfn Hwf)
    as [m [tc [Hm [Htc [Hlen [_ [Hqr _]]]]]]].
  exists m,
    (file_name args i (width df)
       (nth i (run_tokens rng args tc) EmptyString)),
    (file_name args j (width df)
       (nth j (run_tokens rng args tc) EmptyString)).
  split; [exact Hm|]. unfold cell. rewrite Hqr, !nth_error_map.
  rewrite (nth_run_files rng args df tc i Hlen) by lia.
  rewrite (nth_run_files rng args df tc j Hlen) by lia.
  split; [reflexivity|]. split; [reflexivity|].
  unfold file_name. apply numerals_compare.
  - unfold width. rewrite !zfill_str_nat_length by lia. reflexivity.
  - apply digits_zfill.
  - apply digits_zfill.
  - rewrite !int_of_zfill. lia.
Qed.

Lemma file_names_sorted_witness :
  exists m fi fj,
    manifest (main sample_rng sample_args sample_df) = Some m
    /\ cell m "qr_file" 0 = Some (VStr fi)
    /\ cell m "qr_file" 2 = Some (VStr fj)
    /\ String.compare fi fj = Lt.
Proof.
  apply (file_names_sorted sample_rng sample_args sample_df 0 2);
    [reflexivity | apply well_formedb_ok; reflexivity | lia | simpl; lia].
Defined.

(** ** A table without a token column *)

Lemma needing_before_repeat (n : nat) : forall i,
  i <= n -> needing_before (repeat (VStr EmptyString) n) i = i.
Proof.
  unfold needing_before. induction n as [|n IH]; intros i Hi.
  - replace i with 0 by lia. reflexivity.
  - destruct i as [|i]; [reflexivity|].
    cbn [repeat firstn filter].
    replace (needs_new (VStr EmptyString)) with true by reflexivity.
    cbn [length]. now rewrite IH by lia.
Qed.

(** X20. When the table comes without a [token] column every row gets a
    new token, and the tokens are cut from the random source one after
    the other: row [i] (from 0) gets the draws from [i * token_len] on. *)
Theorem tokens_without_token_column (rng : nat -> nat) (args : Args)
  (df : DataFrame) (i : nat) :
  has_column "full_name" df = true -> well_formed df ->
  has_column "token" df = false -> i < nrows df ->
  exists m,
    manifest (main rng args df) = Some m
    /\ cell m "token" i
       = Some (VStr (fst (random_token rng (token_len args)
                            (i * Z.to_nat (token_len args))))).
Proof.
  intros Hfn Hwf Hno Hi.
  destruct (main_manifest rng args df Hfn Hwf)
    as [m [tc [Hm [Htc [Hlen [_ [_ [Htok _]]]]]]]].
  destruct (ensure_token_col df Hwf) as [tc' [Htc' [_ Hrep]]].
  rewrite Htc in Htc'. injection Htc' as <-. rewrite Hno in Hrep.
  assert (Hv : nth_error tc i = Some (VStr EmptyString)).
  { rewrite Hrep. rewrite (nth_error_nth' _ NaN)
      by (now rewrite repeat_length).
    f_equal. apply nth_repeat_lt. exact Hi. }
  exists m. split; [exact Hm|]. rewrite (Htok i _ Hv).
  replace (needs_token (strip (str_value (VStr EmptyString)))) with true
    by reflexivity.
  unfold run_tokens. rewrite nth_tokens_offset by lia.
  rewrite (nth_error_nth _ _ NaN Hv). unfold token_at.
  replace (needs_token (strip (str_value (VStr EmptyString)))) with true
    by reflexivity.
  rewrite Hrep, needing_before_repeat by lia. reflexivity.
Qed.

Lemma tokens_without_token_column_witness :
  exists m,
    manifest (main sample_rng sample_args names_only) = Some m
    /\ cell m "token" 0
       = Some (VStr (fst (random_token sample_rng (token_len sample_args)
                            (0 * Z.to_nat (token_len sample_args))))).
Proof.
  apply (tokens_without_token_column sample_rng sample_args names_only 0);
    [reflexivity | apply well_formedb_ok; reflexivity | reflexivity
    | simpl; lia].
Defined.
